(** * Orphaned-UTXO cleanup: a shallow embedding of [run_orphaned_cleanup.py]

    The development follows [clean_orphaned_utxos] line by line.  Python
    values are the JSON documents the script loads; exceptions are an error
    result; the file system and the order of the calls made on it are
    explicit state.

    Outside the embedding: standard output ([print]), file metadata
    ([copystat]), permissions, symbolic links, text encodings, and JSON
    numbers with a fraction or exponent (the store counts integer
    credits).  The display field [orphaned_value_btp] of the report is a
    floating-point quotient; only the exception its computation can raise is
    kept. *)

From stdpp Require Import base option list strings gmap fin_maps numbers pretty.

(** ** Python values as loaded by [json.load] *)

(** [JObj] holds the items of a [dict] in insertion order; a lookup takes the
    first item with the key ([json.load] never yields two items with one
    key). *)
#[warnings="-register-all"]
Inductive json : Type :=
| JNull
| JBool (b : bool)
| JInt (n : Z)
| JStr (s : string)
| JArr (items : list json)
| JObj (members : list (string * json)).

Inductive exn : Type :=
| FileNotFoundError (p : list string)
| IsADirectoryError (p : list string)
| NotADirectoryError (p : list string)
| SameFileError (p : list string)
| JSONDecodeError
| TypeError
| KeyError
| AttributeError
| OverflowError.

Inductive result (A : Type) : Type :=
| Ok (a : A)
| Raise (e : exn).
Arguments Ok {A} a.
Arguments Raise {A} e.

Definition rbind {A B} (r : result A) (k : A -> result B) : result B :=
  match r with
  | Ok a => k a
  | Raise e => Raise e
  end.

Declare Scope result_scope.
Delimit Scope result_scope with result.
Notation "'let?' x ':=' r 'in' k" := (rbind r (fun x => k))
  (at level 10, x name, r at level 100, k at level 200) : result_scope.
Open Scope result_scope.

(** *** Strings *)

Fixpoint startswith (pre s : string) : bool :=
  match pre, s with
  | EmptyString, _ => true
  | String a pre', String b s' => Ascii.eqb a b && startswith pre' s'
  | String _ _, EmptyString => false
  end.

Definition endswith (suf s : string) : bool :=
  startswith (String.rev suf) (String.rev s).

(** [needle in hay] on two [str]: substring test. *)
Fixpoint str_contains (needle hay : string) : bool :=
  startswith needle hay
  || match hay with
     | EmptyString => false
     | String _ hay' => str_contains needle hay'
     end.

(** *** Dictionaries, hashing and equality *)

Fixpoint dict_get (k : string) (kvs : list (string * json)) : option json :=
  match kvs with
  | [] => None
  | (k', v) :: rest => if String.eqb k k' then Some v else dict_get k rest
  end.

Definition dict_has (k : string) (kvs : list (string * json)) : bool :=
  match dict_get k kvs with Some _ => true | None => false end.

(** [list] and [dict] are unhashable. *)
Definition hashable (v : json) : bool :=
  match v with
  | JArr _ | JObj _ => false
  | _ => true
  end.

(** [bool] is a subclass of [int]: [True == 1]. *)
Definition as_int (v : json) : option Z :=
  match v with
  | JInt n => Some n
  | JBool b => Some (Z.b2z b)
  | _ => None
  end.

(** [==] between two hashable values. *)
Definition key_eq (a b : json) : bool :=
  match a, b with
  | JNull, JNull => true
  | JStr s, JStr t => String.eqb s t
  | _, _ =>
      match as_int a, as_int b with
      | Some x, Some y => (x =? y)%Z
      | _, _ => false
      end
  end.

(** A [set] of hashable values, in insertion order. *)
Definition pyset := list json.

Definition set_mem (v : json) (s : pyset) : bool := existsb (key_eq v) s.

(** [s.add(v)] *)
Definition set_add (v : json) (s : pyset) : result pyset :=
  if hashable v
  then Ok (if set_mem v s then s else s ++ [v])
  else Raise TypeError.

(** [v in s] for a set [s] *)
Definition set_contains (v : json) (s : pyset) : result bool :=
  if hashable v then Ok (set_mem v s) else Raise TypeError.

(** [k in d] for a string [k] and a loaded document [d]: key test on a
    [dict], element test on a [list], substring test on a [str]; the other
    values are not iterable. *)
Definition py_contains (k : string) (d : json) : result bool :=
  match d with
  | JObj kvs => Ok (dict_has k kvs)
  | JArr items => Ok (existsb (key_eq (JStr k)) items)
  | JStr s => Ok (str_contains k s)
  | JNull | JBool _ | JInt _ => Raise TypeError
  end.

(** [d[k]] for a string [k], reached only after [k in d] held. *)
Definition py_getitem (k : string) (d : json) : result json :=
  match d with
  | JObj kvs =>
      match dict_get k kvs with
      | Some v => Ok v
      | None => Raise KeyError
      end
  | _ => Raise TypeError
  end.

(** [d.get(k, default)]: only [dict] has the method. *)
Definition py_get (k : string) (dflt : json) (d : json) : result json :=
  match d with
  | JObj kvs => Ok (default dflt (dict_get k kvs))
  | _ => Raise AttributeError
  end.

Fixpoint chars (s : string) : list json :=
  match s with
  | EmptyString => []
  | String a s' => JStr (String a EmptyString) :: chars s'
  end.

(** [for x in d]: the elements of a [list], the keys of a [dict], the
    characters of a [str]. *)
Definition py_iter (d : json) : result (list json) :=
  match d with
  | JArr items => Ok items
  | JObj kvs => Ok (map (fun kv => JStr (fst kv)) kvs)
  | JStr s => Ok (chars s)
  | JNull | JBool _ | JInt _ => Raise TypeError
  end.

(** [acc += v] with an [int] accumulator. *)
Definition py_iadd (acc : Z) (v : json) : result Z :=
  match as_int v with
  | Some n => Ok (acc + n)%Z
  | None => Raise TypeError
  end.

(** ** Lines 41-54: the partition loop *)

Record locals : Type := {
  owned_utxos : list json;
  orphaned_utxos : list json;
  orphaned_value_credits : Z
}.

Definition locals0 : locals :=
  {| owned_utxos := []; orphaned_utxos := []; orphaned_value_credits := 0%Z |}.

(** One iteration of [for utxo in utxos] (lines 47-54). *)
Definition loop_body (wallet_identifiers : pyset) (st : locals) (utxo : json)
  : result locals :=
  let? address := py_get "address" (JStr "") utxo in
  let? hit := set_contains address wallet_identifiers in
  if hit
  then Ok {| owned_utxos := owned_utxos st ++ [utxo];
             orphaned_utxos := orphaned_utxos st;
             orphaned_value_credits := orphaned_value_credits st |}
  else
    let? value := py_get "value_credits" (JInt 0%Z) utxo in
    let? total := py_iadd (orphaned_value_credits st) value in
    Ok {| owned_utxos := owned_utxos st;
          orphaned_utxos := orphaned_utxos st ++ [utxo];
          orphaned_value_credits := total |}.

Fixpoint loop (wallet_identifiers : pyset) (st : locals) (utxos : list json)
  : result locals :=
  match utxos with
  | [] => Ok st
  | utxo :: rest =>
      let? st' := loop_body wallet_identifiers st utxo in
      loop wallet_identifiers st' rest
  end.

Definition partition_utxos (wallet_identifiers : pyset) (utxos : json)
  : result locals :=
  let? entries := py_iter utxos in
  loop wallet_identifiers locals0 entries.

(** ** Lines 56-63: the report *)

Record report : Type := {
  total_utxos : nat;
  report_owned_utxos : nat;
  report_orphaned_utxos : nat;
  report_orphaned_value_credits : Z
}.

(** [orphaned_value_credits / 100_000_000.0] converts the [int] to a
    double first and raises [OverflowError] when it rounds (to nearest,
    ties to even) beyond the largest finite double, [2^1024 - 2^971]. *)
Definition float_overflows (n : Z) : bool :=
  (2 ^ 1024 - 2 ^ 970 <=? Z.abs n)%Z.

Definition make_report (st : locals) : result report :=
  if float_overflows (orphaned_value_credits st)
  then Raise OverflowError
  else Ok {| total_utxos := length (owned_utxos st) + length (orphaned_utxos st);
             report_owned_utxos := length (owned_utxos st);
             report_orphaned_utxos := length (orphaned_utxos st);
             report_orphaned_value_credits := orphaned_value_credits st |}.

(** ** The file system *)

(** A path is the list of its components below the root.  A directory
    carries its listing, in the order [os.listdir] returns it. *)
Inductive node : Type :=
| File (data : string)
| Dir (names : list string).

(** [p.parent], the final component of [p], and [p / name]. *)
Definition parent (p : list string) : list string := removelast p.
Definition basename (p : list string) : string := List.last p "".
Definition child (p : list string) (name : string) : list string := p ++ [name].

(** The calls the script makes on the file system. *)
Inductive event : Type :=
| EvExists (p : list string)
| EvOpenRead (p : list string)
| EvListdir (p : list string)
| EvCopy (src dst : list string)
| EvOpenWrite (p : list string)
| EvWrite (p : list string).

Definition fs_exists (p : list string) (fs : gmap (list string) node)
  : result bool * gmap (list string) node :=
  (Ok (bool_decide (is_Some (fs !! p))), fs).

Definition fs_read (p : list string) (fs : gmap (list string) node)
  : result string * gmap (list string) node :=
  match fs !! p with
  | Some (File data) => (Ok data, fs)
  | Some (Dir _) => (Raise (IsADirectoryError p), fs)
  | None => (Raise (FileNotFoundError p), fs)
  end.

Definition fs_listdir (p : list string) (fs : gmap (list string) node)
  : result (list string) * gmap (list string) node :=
  match fs !! p with
  | Some (Dir names) => (Ok names, fs)
  | Some (File _) => (Raise (NotADirectoryError p), fs)
  | None => (Raise (FileNotFoundError p), fs)
  end.

Definition add_name (name : string) (names : list string) : list string :=
  if bool_decide (name ∈ names) then names else names ++ [name].

(** Opening [p] for writing and storing [data]: an existing file is
    overwritten in place, a new one is entered in its directory. *)
Definition fs_store (p : list string) (data : string)
  (fs : gmap (list string) node) : result unit * gmap (list string) node :=
  match fs !! p with
  | Some (File _) => (Ok tt, <[p := File data]> fs)
  | Some (Dir _) => (Raise (IsADirectoryError p), fs)
  | None =>
      match fs !! parent p with
      | Some (Dir names) =>
          (Ok tt, <[p := File data]>
                    (<[parent p := Dir (add_name (basename p) names)]> fs))
      | Some (File _) => (Raise (NotADirectoryError p), fs)
      | None => (Raise (FileNotFoundError p), fs)
      end
  end.

(** [shutil.copy2]'s destination: into [dst] when that is a directory. *)
Definition copy_target (src dst : list string) (fs : gmap (list string) node)
  : list string :=
  match fs !! dst with
  | Some (Dir _) => child dst (basename src)
  | _ => dst
  end.

(** [shutil.copy2(src, dst)]: refuse to copy an existing file onto itself,
    open the source, then write the destination. *)
Definition fs_copy2 (src dst : list string) (fs : gmap (list string) node)
  : result unit * gmap (list string) node :=
  let dst' := copy_target src dst fs in
  match fs !! src with
  | None => (Raise (FileNotFoundError src), fs)
  | Some nd =>
      if bool_decide (src = dst')
      then (Raise (SameFileError src), fs)
      else
        match nd with
        | File data => fs_store dst' data fs
        | Dir _ => (Raise (IsADirectoryError src), fs)
        end
  end.

(** ** Effects: state, exceptions and the log of calls *)

(** What a computation leaves behind: the value returned or the exception
    raised, the files, and the calls it made in order, each with the files
    as the call left them. *)
Record run (A : Type) : Type := {
  returned : result A;
  files : gmap (list string) node;
  trace : list (event * gmap (list string) node)
}.
Arguments returned {A} r.
Arguments files {A} r.
Arguments trace {A} r.

Definition io (A : Type) : Type := gmap (list string) node -> run A.

Definition ioret {A} (a : A) : io A :=
  fun fs => {| returned := Ok a; files := fs; trace := [] |}.

Definition ioraise {A} (e : exn) : io A :=
  fun fs => {| returned := Raise e; files := fs; trace := [] |}.

Definition lift {A} (r : result A) : io A :=
  fun fs => {| returned := r; files := fs; trace := [] |}.

(** An exception ends the computation; what was written stays written. *)
Definition iobind {A B} (m : io A) (k : A -> io B) : io B :=
  fun fs =>
    let r := m fs in
    match returned r with
    | Ok a =>
        let r' := k a (files r) in
        {| returned := returned r'; files := files r';
           trace := trace r ++ trace r' |}
    | Raise e =>
        {| returned := Raise e; files := files r; trace := trace r |}
    end.

(** A call on the file system, logged with the files it left. *)
Definition syscall {A} (ev : event)
  (op : gmap (list string) node -> result A * gmap (list string) node) : io A :=
  fun fs =>
    {| returned := fst (op fs); files := snd (op fs);
       trace := [(ev, snd (op fs))] |}.

Declare Scope io_scope.
Delimit Scope io_scope with io.
Notation "'let!' x ':=' m 'in' k" := (iobind m (fun x => k))
  (at level 10, x name, m at level 100, k at level 200) : io_scope.
Open Scope io_scope.

(** ** The JSON library and the clock *)

(** [json.load] and [json.dump] are library code: the script is embedded
    over any decoder and encoder. *)
Record json_codec : Type := {
  json_loads : string -> option json;
  json_dumps : json -> string
}.

(** The value of [datetime.now()]. *)
Record datetime : Type := {
  year : nat; month : nat; day : nat;
  hour : nat; minute : nat; second : nat
}.

Definition digit (n : nat) : Ascii.ascii := Ascii.ascii_of_nat (48 + n mod 10).

Definition two_digits (n : nat) : string :=
  String (digit (n / 10)) (String (digit n) EmptyString).

Definition four_digits (n : nat) : string :=
  two_digits (n / 100) +:+ two_digits n.

(** [strftime('%Y%m%d_%H%M%S')], for years of four digits. *)
Definition strftime (t : datetime) : string :=
  four_digits (year t) +:+ two_digits (month t) +:+ two_digits (day t)
  +:+ "_" +:+ two_digits (hour t) +:+ two_digits (minute t)
  +:+ two_digits (second t).

(** ** [clean_orphaned_utxos] *)

(** Lines 21-22 and 31-32: [open(p, 'r')] and [json.load]. *)
Definition read_json (codec : json_codec) (p : list string) : io json :=
  let! data := syscall (EvOpenRead p) (fs_read p) in
  match json_loads codec data with
  | Some v => ioret v
  | None => ioraise JSONDecodeError
  end.

(** Lines 34-35 and 36-37: [if key in wallet_data: ids.add(wallet_data[key])]. *)
Definition add_field (key : string) (wallet_data : json) (ids : pyset)
  : result pyset :=
  let? present := py_contains key wallet_data in
  if present
  then let? v := py_getitem key wallet_data in set_add v ids
  else Ok ids.

Definition add_wallet (wallet_data : json) (ids : pyset) : result pyset :=
  let? ids' := add_field "public_key" wallet_data ids in
  add_field "address" wallet_data ids'.

(** Lines 28-37: the loop over [os.listdir(wallets_dir)]. *)
Fixpoint scan_wallets (codec : json_codec) (wallets_dir : list string)
  (filenames : list string) (wallet_identifiers : pyset) : io pyset :=
  match filenames with
  | [] => ioret wallet_identifiers
  | filename :: rest =>
      if startswith "wallet_" filename && endswith ".json" filename
      then
        let! wallet_data := read_json codec (child wallets_dir filename) in
        let! ids := lift (add_wallet wallet_data wallet_identifiers) in
        scan_wallets codec wallets_dir rest ids
      else scan_wallets codec wallets_dir rest wallet_identifiers
  end.

(** Line 75: the backup sits next to the store under a fixed name. *)
Definition backup_file (utxo_file : list string) (now : datetime)
  : list string :=
  child (parent utxo_file) ("wallet_utxos.json.orphan_backup_" +:+ strftime now).

(** Lines 17-63: everything up to the report. *)
Definition reconcile (codec : json_codec) (utxo_file wallets_dir : list string)
  : io (locals * report) :=
  let! found := syscall (EvExists utxo_file) (fs_exists utxo_file) in
  if negb found then ioraise (FileNotFoundError utxo_file)
  else
    let! utxos := read_json codec utxo_file in
    let! filenames := syscall (EvListdir wallets_dir) (fs_listdir wallets_dir) in
    let! wallet_identifiers := scan_wallets codec wallets_dir filenames [] in
    let! st := lift (partition_utxos wallet_identifiers utxos) in
    let! rep := lift (make_report st) in
    ioret (st, rep).

(** Lines 72-81: backup, then overwrite.  [open(utxo_file, 'w')] truncates
    the store; [json.dump] and the end of the [with] block fill it. *)
Definition rewrite_store (codec : json_codec) (utxo_file : list string)
  (now : datetime) (st : locals) : io unit :=
  let! _ := syscall (EvCopy utxo_file (backup_file utxo_file now))
              (fs_copy2 utxo_file (backup_file utxo_file now)) in
  let! _ := syscall (EvOpenWrite utxo_file) (fs_store utxo_file "") in
  syscall (EvWrite utxo_file)
    (fs_store utxo_file (json_dumps codec (JArr (owned_utxos st)))).

Definition clean_orphaned_utxos (codec : json_codec)
  (utxo_file wallets_dir : list string) (now : datetime) (dry_run : bool)
  : io report :=
  let! sr := reconcile codec utxo_file wallets_dir in
  if negb dry_run && (0 <? report_orphaned_utxos (snd sr))%nat
  then
    let! _ := rewrite_store codec utxo_file now (fst sr) in
    ioret (snd sr)
  else ioret (snd sr).

(** ** Specification vocabulary *)

(** The membership test of line 48 on an entry, and the credits line 52
    reads from it. *)
Definition owned_by (wallet_identifiers : pyset) (utxo : json) : bool :=
  match utxo with
  | JObj kvs =>
      set_mem (default (JStr "") (dict_get "address" kvs)) wallet_identifiers
  | _ => false
  end.

Definition credits_of (utxo : json) : Z :=
  match utxo with
  | JObj kvs =>
      match dict_get "value_credits" kvs with
      | Some v => default 0%Z (as_int v)
      | None => 0%Z
      end
  | _ => 0%Z
  end.

Definition sum_credits (utxos : list json) : Z :=
  foldr Z.add 0%Z (map credits_of utxos).

(** An entry as the store's data model has it: a [dict] whose address, when
    present, is hashable and whose credits, when present, are an [int]. *)
Definition entry_ok (utxo : json) : bool :=
  match utxo with
  | JObj kvs =>
      hashable (default (JStr "") (dict_get "address" kvs))
      && bool_decide (is_Some (as_int (default (JInt 0%Z)
                                         (dict_get "value_credits" kvs))))
  | _ => false
  end.

(** An entry every iteration files under the owned ones. *)
Definition kept (wallet_identifiers : pyset) (utxo : json) : Prop :=
  forall st,
    loop_body wallet_identifiers st utxo
    = Ok {| owned_utxos := owned_utxos st ++ [utxo];
            orphaned_utxos := orphaned_utxos st;
            orphaned_value_credits := orphaned_value_credits st |}.

(** The backup copy of a store that is a file has somewhere to go: its
    target is another path than the store and is an existing file, or is
    free in an existing directory. *)
Definition backup_writable (u : list string) (now : datetime)
  (fs : gmap (list string) node) : Prop :=
  let tgt := copy_target u (backup_file u now) fs in
  tgt <> u
  /\ ((exists old, fs !! tgt = Some (File old))
      \/ (fs !! tgt = None /\ exists names, fs !! parent tgt = Some (Dir names))).

(** Calls that change no file. *)
Definition reads (ev : event) : bool :=
  match ev with
  | EvExists _ | EvOpenRead _ | EvListdir _ => true
  | EvCopy _ _ | EvOpenWrite _ | EvWrite _ => false
  end.

(** A stretch of the log in which nothing was written: only reading calls,
    each leaving the files [fs]. *)
Definition quiet (fs : gmap (list string) node)
  (t : list (event * gmap (list string) node)) : Prop :=
  Forall (fun c => reads (fst c) = true /\ snd c = fs) t.

(** What one of the two [if key in wallet_data] statements adds. *)
Definition contributes (key : string) (kvs : list (string * json)) (x : json)
  : bool :=
  match dict_get key kvs with
  | Some v => key_eq x v
  | None => false
  end.

(** A computation that writes nothing: whatever it returns, the files are
    as before and its log is quiet. *)
Definition readonly {A} (m : io A) : Prop :=
  forall fs, files (m fs) = fs /\ quiet fs (trace (m fs)).

(** Two file systems showing the same wallet directory: the same listing
    and the same node under every listed name. *)
Definition same_wallet_store (wallets_dir : list string)
  (fs fs' : gmap (list string) node) : Prop :=
  fs' !! wallets_dir = fs !! wallets_dir
  /\ forall names,
       fs !! wallets_dir = Some (Dir names) ->
       Forall (fun name =>
                 fs' !! child wallets_dir name = fs !! child wallets_dir name)
         names.

(** ** A concrete encoder, decoder and scenario *)

Definition nl : string := String (Ascii.ascii_of_nat 10) EmptyString.
Definition dquote : string := String (Ascii.ascii_of_nat 34) EmptyString.

Fixpoint spaces (n : nat) : string :=
  match n with
  | O => EmptyString
  | S k => String (Ascii.ascii_of_nat 32) (spaces k)
  end.

Definition hex_digit (n : nat) : Ascii.ascii :=
  Ascii.ascii_of_nat (if n <? 10 then 48 + n else 87 + n).

(** The escape of one character as [json.dump] writes it: a backslash
    before the quote and the backslash, the short escapes of backspace, tab,
    line feed, form feed and carriage return, and [\u00xx] for the other
    control characters and for the code points above 126. *)
Definition escape_char (a : Ascii.ascii) : string :=
  let n := Ascii.nat_of_ascii a in
  if n =? 34 then String (Ascii.ascii_of_nat 92) dquote
  else if n =? 92 then "\\"
  else if n =? 8 then "\b"
  else if n =? 9 then "\t"
  else if n =? 10 then "\n"
  else if n =? 12 then "\f"
  else if n =? 13 then "\r"
  else if (n <? 32) || (126 <? n)
  then "\u00" +:+ String (hex_digit (n / 16))
                  (String (hex_digit (n mod 16)) EmptyString)
  else String a EmptyString.

Fixpoint escape (s : string) : string :=
  match s with
  | EmptyString => EmptyString
  | String a s' => escape_char a +:+ escape s'
  end.

Definition quoted (s : string) : string := dquote +:+ escape s +:+ dquote.

Fixpoint lines (ind : nat) (items : list string) : string :=
  match items with
  | [] => EmptyString
  | [x] => spaces ind +:+ x
  | x :: rest => spaces ind +:+ x +:+ "," +:+ nl +:+ lines ind rest
  end.

(** The text [json.dump(v, f, indent=2)] writes. *)
Fixpoint dump (ind : nat) (v : json) {struct v} : string :=
  match v with
  | JNull => "null"
  | JBool b => if b then "true" else "false"
  | JInt n => pretty n
  | JStr s => quoted s
  | JArr items =>
      match items with
      | [] => "[]"
      | _ => "[" +:+ nl +:+ lines (ind + 2) (map (dump (ind + 2)) items)
             +:+ nl +:+ spaces ind +:+ "]"
      end
  | JObj kvs =>
      match kvs with
      | [] => "{}"
      | _ => "{" +:+ nl
             +:+ lines (ind + 2)
                   (map (fun kv => quoted (fst kv) +:+ ": "
                                   +:+ dump (ind + 2) (snd kv)) kvs)
             +:+ nl +:+ spaces ind +:+ "}"
      end
  end.

(** A decoder for a given list of documents: a text decodes to the listed
    document it is the dump of, any other text is rejected. *)
Definition table_codec (docs : list json) : json_codec :=
  {| json_loads := fun s => find (fun v => String.eqb (dump 0 v) s) docs;
     json_dumps := dump 0 |}.

(** A store of two entries beside a wallet directory that knows one of the
    two addresses. *)
Definition utxo_a : json :=
  JObj [("address", JStr "addrA"); ("value_credits", JInt 500)].
Definition utxo_b : json :=
  JObj [("address", JStr "addrB"); ("value_credits", JInt 300)].
Definition wallet_a : json := JObj [("address", JStr "addrA")].
Definition wallet_blank : json := JObj [("address", JStr "")].

Definition scenario_codec : json_codec :=
  table_codec [JArr [utxo_a; utxo_b]; JArr [utxo_a]; wallet_a; wallet_blank].

Definition store_path : list string := ["data"; "wallet_utxos.json"].
Definition wallets_path : list string := ["wallets"].

Definition noon : datetime :=
  {| year := 2025; month := 1; day := 1; hour := 12; minute := 0; second := 0 |}.

Definition scenario_fs : gmap (list string) node :=
  list_to_map
    [ ([], Dir ["data"; "wallets"]);
      (["data"], Dir ["wallet_utxos.json"]);
      (store_path, File (dump 0 (JArr [utxo_a; utxo_b])));
      (wallets_path, Dir ["wallet_a.json"]);
      (child wallets_path "wallet_a.json", File (dump 0 wallet_a)) ].

(** The same store under another file name. *)
Definition other_store_path : list string := ["data"; "store.json"].

Definition other_name_fs : gmap (list string) node :=
  list_to_map
    [ ([], Dir ["data"; "wallets"]);
      (["data"], Dir ["store.json"]);
      (other_store_path, File (dump 0 (JArr [utxo_a; utxo_b])));
      (wallets_path, Dir ["wallet_a.json"]);
      (child wallets_path "wallet_a.json", File (dump 0 wallet_a)) ].

(** The store without any wallet directory. *)
Definition no_wallets_fs : gmap (list string) node :=
  list_to_map
    [ ([], Dir ["data"]);
      (["data"], Dir ["wallet_utxos.json"]);
      (store_path, File (dump 0 (JArr [utxo_a; utxo_b]))) ].

(** The wallet directory with a second, unparseable wallet file. *)
Definition bad_sibling_fs : gmap (list string) node :=
  list_to_map
    [ ([], Dir ["data"; "wallets"]);
      (["data"], Dir ["wallet_utxos.json"]);
      (store_path, File (dump 0 (JArr [utxo_a; utxo_b])));
      (wallets_path, Dir ["wallet_a.json"; "wallet_bad.json"]);
      (child wallets_path "wallet_a.json", File (dump 0 wallet_a));
      (child wallets_path "wallet_bad.json", File "not json") ].

(** The wallet directory holding one record with an empty address. *)
Definition blank_wallet_fs : gmap (list string) node :=
  list_to_map
    [ ([], Dir ["data"; "wallets"]);
      (["data"], Dir ["wallet_utxos.json"]);
      (store_path, File (dump 0 (JArr [utxo_a; utxo_b])));
      (wallets_path, Dir ["wallet_blank.json"]);
      (child wallets_path "wallet_blank.json", File (dump 0 wallet_blank)) ].

(** ** [main] *)

(** Line 29: the test a file name has to pass to be read as a wallet. *)
Definition wallet_named (filename : string) : bool :=
  startswith "wallet_" filename && endswith ".json" filename.

(** A string is the sequence of its code points; the ones below 256 are
    embedded.  [str.isspace] holds there for the ASCII white space, the four
    separators 28-31, NEL (133) and the no-break space (160). *)
Definition py_isspace (a : Ascii.ascii) : bool :=
  let n := Ascii.nat_of_ascii a in
  ((9 <=? n) && (n <=? 13)) || ((28 <=? n) && (n <=? 32))
  || (n =? 133) || (n =? 160).

Fixpoint lstrip (s : string) : string :=
  match s with
  | EmptyString => EmptyString
  | String a s' => if py_isspace a then lstrip s' else s
  end.

(** [s.strip()] *)
Definition strip (s : string) : string :=
  String.rev (lstrip (String.rev (lstrip s))).

(** Lower case of a code point below 256: the letters A-Z and the Latin-1
    capitals 192-222 other than the multiplication sign move up by 32. *)
Definition lower_char (a : Ascii.ascii) : Ascii.ascii :=
  let n := Ascii.nat_of_ascii a in
  if ((65 <=? n) && (n <=? 90))
     || ((192 <=? n) && (n <=? 214)) || ((216 <=? n) && (n <=? 222))
  then Ascii.ascii_of_nat (n + 32)
  else a.

(** [s.lower()] *)
Fixpoint lower (s : string) : string :=
  match s with
  | EmptyString => EmptyString
  | String a s' => String (lower_char a) (lower s')
  end.

(** Line 114, negated: the answer that lets the cleanup proceed. *)
Definition confirmed (response : string) : bool :=
  String.eqb (lower (strip response)) "yes".

(** Lines 96-97: the two paths [main] works on. *)
Definition main_utxo_file : list string :=
  ["home"; "bob"; ".btpc"; "data"; "wallet"; "wallet_utxos.json"].
Definition main_wallets_dir : list string :=
  ["home"; "bob"; ".btpc"; "wallets"].

(** Lines 95-127, with the line [input] reads as [response] (the end of
    input is not embedded) and the clock as [now]: a dry run, the question,
    and the cleanup once the answer is yes. *)
Definition main (codec : json_codec) (now : datetime) (response : string)
  : io unit :=
  let! _ := clean_orphaned_utxos codec main_utxo_file main_wallets_dir now
              true in
  if negb (confirmed response)
  then ioret tt
  else
    let! _ := clean_orphaned_utxos codec main_utxo_file main_wallets_dir now
                false in
    ioret tt.

(** An entry the loop can file: a [dict] with a hashable address whose
    credits are an [int] unless the entry is owned. *)
Definition entry_fileable (wallet_identifiers : pyset) (utxo : json) : bool :=
  match utxo with
  | JObj kvs =>
      hashable (default (JStr "") (dict_get "address" kvs))
      && (owned_by wallet_identifiers utxo
          || bool_decide (is_Some (as_int (default (JInt 0%Z)
                                             (dict_get "value_credits" kvs)))))
  | _ => false
  end.

Definition is_dict (v : json) : bool :=
  match v with
  | JObj _ => true
  | _ => false
  end.

(** [main]'s paths with the scenario's store and wallet. *)
Definition main_fs : gmap (list string) node :=
  list_to_map
    [ (["home"; "bob"; ".btpc"], Dir ["data"; "wallets"]);
      (["home"; "bob"; ".btpc"; "data"], Dir ["wallet"]);
      (["home"; "bob"; ".btpc"; "data"; "wallet"], Dir ["wallet_utxos.json"]);
      (main_utxo_file, File (dump 0 (JArr [utxo_a; utxo_b])));
      (main_wallets_dir, Dir ["notes.txt"; "wallet_a.json"]);
      (child main_wallets_dir "notes.txt", File "not json");
      (child main_wallets_dir "wallet_a.json", File (dump 0 wallet_a)) ].

(** The exception an entry makes the loop raise, if any: [get] on a value
    that is no [dict], an unhashable address, credits that cannot be added
    to an [int] in an entry that is not owned. *)
Definition entry_error (wallet_identifiers : pyset) (utxo : json)
  : option exn :=
  match utxo with
  | JObj kvs =>
      if hashable (default (JStr "") (dict_get "address" kvs))
      then
        if owned_by wallet_identifiers utxo
           || bool_decide (is_Some (as_int (default (JInt 0%Z)
                                              (dict_get "value_credits" kvs))))
        then None
        else Some TypeError
      else Some TypeError
  | _ => Some AttributeError
  end.

(** The reading phase got as far as the loop: the store decodes to the array
    [entries] and the scan of the wallet directory returns [ids]. *)
Definition loaded (codec : json_codec) (u w : list string)
  (fs : gmap (list string) node) (entries : list json) (ids : pyset) : Prop :=
  exists data names,
    fs !! u = Some (File data)
    /\ json_loads codec data = Some (JArr entries)
    /\ fs !! w = Some (Dir names)
    /\ returned (scan_wallets codec w names [] fs) = Ok ids.

(** More stores for the scenario's wallet directory: an empty one, one with
    a number among its entries, one whose orphaned entry is worth 2^1024
    credits, one whose owned entry has credits that are no number. *)
Definition utxo_huge : json :=
  JObj [("address", JStr "addrB"); ("value_credits", JInt (2 ^ 1024))].
Definition utxo_odd : json :=
  JObj [("address", JStr "addrA"); ("value_credits", JStr "many")].

Definition wide_codec : json_codec :=
  table_codec [JArr []; JArr [utxo_a; JInt 7; utxo_b]; JArr [utxo_huge];
               JArr [utxo_odd; utxo_b]; JArr [utxo_odd]; wallet_a].

Definition store_fs (utxos : json) : gmap (list string) node :=
  list_to_map
    [ ([], Dir ["data"; "wallets"]);
      (["data"], Dir ["wallet_utxos.json"]);
      (store_path, File (dump 0 utxos));
      (wallets_path, Dir ["wallet_a.json"]);
      (child wallets_path "wallet_a.json", File (dump 0 wallet_a)) ].

(** A string of white space only. *)
Fixpoint all_space (s : string) : bool :=
  match s with
  | EmptyString => true
  | String a s' => py_isspace a && all_space s'
  end.

(** The dates [strftime] is embedded for, within the ranges of
    [datetime]. *)
Definition in_range (t : datetime) : Prop :=
  1000 <= year t /\ year t < 10 * 1000 /\ month t <= 12 /\ day t <= 31
  /\ hour t < 24 /\ minute t < 60 /\ second t < 60.

(** The spellings of yes in upper and lower case. *)
Definition yes_spellings : list string :=
  ["yes"; "yeS"; "yEs"; "yES"; "Yes"; "YeS"; "YEs"; "YES"].

(** The scenario with the path of the backup taken: it is a directory, and
    so is the entry named like the store inside it. *)
Definition blocked_backup_fs : gmap (list string) node :=
  list_to_map
    [ ([], Dir ["data"; "wallets"]);
      (["data"],
       Dir ["wallet_utxos.json";
            "wallet_utxos.json.orphan_backup_20250101_120000"]);
      (store_path, File (dump 0 (JArr [utxo_a; utxo_b])));
      (["data"; "wallet_utxos.json.orphan_backup_20250101_120000"],
       Dir ["wallet_utxos.json"]);
      (["data"; "wallet_utxos.json.orphan_backup_20250101_120000";
        "wallet_utxos.json"], Dir []);
      (wallets_path, Dir ["wallet_a.json"]);
      (child wallets_path "wallet_a.json", File (dump 0 wallet_a)) ].

(** * Properties *)

(** ** The partition loop *)

Lemma filter_split_perm (f : json -> bool) (l : list json) :
  List.filter f l ++ List.filter (fun e => negb (f e)) l ≡ₚ l.
Proof.
  induction l as [|x l IH]; simpl; [reflexivity|].
  destruct (f x); simpl.
  - by constructor.
  - rewrite <- Permutation_middle. by constructor.
Qed.

Lemma loop_body_ok (ids : pyset) (st : locals) (e : json) :
  entry_ok e = true ->
  loop_body ids st e =
    Ok (if owned_by ids e
        then {| owned_utxos := owned_utxos st ++ [e];
                orphaned_utxos := orphaned_utxos st;
                orphaned_value_credits := orphaned_value_credits st |}
        else {| owned_utxos := owned_utxos st;
                orphaned_utxos := orphaned_utxos st ++ [e];
                orphaned_value_credits :=
                  (orphaned_value_credits st + credits_of e)%Z |}).
Proof.
  destruct e as [| | | | |kvs]; try discriminate.
  unfold entry_ok, loop_body, owned_by, credits_of, set_contains, py_get.
  intros [Hh Hv%bool_decide_eq_true]%andb_true_iff.
  unfold rbind at 1 2. rewrite Hh.
  destruct (set_mem _ ids); [reflexivity|].
  unfold py_iadd, rbind.
  destruct (dict_get "value_credits" kvs) as [v|]; simpl in *.
  - destruct Hv as [n Hn]. by rewrite Hn.
  - by rewrite Z.add_0_r.
Qed.

Lemma loop_ok (ids : pyset) (entries : list json) :
  Forall (fun e => entry_ok e = true) entries ->
  forall st,
    loop ids st entries =
      Ok {| owned_utxos := owned_utxos st ++ List.filter (owned_by ids) entries;
            orphaned_utxos :=
              orphaned_utxos st
              ++ List.filter (fun e => negb (owned_by ids e)) entries;
            orphaned_value_credits :=
              (orphaned_value_credits st
               + sum_credits (List.filter (fun e => negb (owned_by ids e))
                                entries))%Z |}.
Proof.
  induction 1 as [|e entries He _ IH]; intros st; simpl.
  - rewrite !app_nil_r. unfold sum_credits. simpl. rewrite Z.add_0_r.
    by destruct st.
  - rewrite (loop_body_ok ids st e He). simpl.
    rewrite IH. destruct (owned_by ids e); simpl.
    + by rewrite <- app_assoc.
    + rewrite <- app_assoc. unfold sum_credits. simpl.
      by rewrite Z.add_assoc.
Qed.

Lemma filter_all (f : json -> bool) (l : list json) (e : json) :
  e ∈ List.filter f l -> f e = true.
Proof.
  rewrite list_elem_of_In, filter_In. tauto.
Qed.

(** C1: on a store of well-typed entries the loop succeeds; the owned and
    the orphaned list are the stable split of the store by the membership
    test, together they are a permutation of the store, no entry is in
    both, the accumulated credits are the integer sum over the orphaned
    entries (a missing field counting 0), and the report, which exists
    exactly when the display conversion does not overflow, carries these
    numbers with total = owned + orphaned. *)
Theorem partition_report_exact (ids : pyset) (entries : list json) :
  Forall (fun e => entry_ok e = true) entries ->
  exists st,
    partition_utxos ids (JArr entries) = Ok st
    /\ owned_utxos st = List.filter (owned_by ids) entries
    /\ orphaned_utxos st = List.filter (fun e => negb (owned_by ids e)) entries
    /\ owned_utxos st ++ orphaned_utxos st ≡ₚ entries
    /\ (forall e, e ∈ owned_utxos st -> e ∈ orphaned_utxos st -> False)
    /\ orphaned_value_credits st = sum_credits (orphaned_utxos st)
    /\ (float_overflows (sum_credits (orphaned_utxos st)) = false ->
        exists rep, make_report st = Ok rep)
    /\ forall rep, make_report st = Ok rep ->
         total_utxos rep
         = (report_owned_utxos rep + report_orphaned_utxos rep)%nat
         /\ total_utxos rep = length entries
         /\ report_owned_utxos rep = length (owned_utxos st)
         /\ report_orphaned_utxos rep = length (orphaned_utxos st)
         /\ report_orphaned_value_credits rep
            = sum_credits (orphaned_utxos st).
Proof.
  intros Hok. eexists. split.
  { unfold partition_utxos. simpl. apply loop_ok, Hok. }
  simpl. rewrite Z.add_0_l.
  split; [reflexivity|]. split; [reflexivity|].
  split; [apply filter_split_perm|].
  split.
  { intros e H1%filter_all H2%filter_all. rewrite H1 in H2. discriminate. }
  split; [reflexivity|].
  split.
  { intros Hf. unfold make_report. simpl. rewrite Hf. eauto. }
  intros rep. unfold make_report. simpl.
  destruct (float_overflows _); [discriminate|].
  intros [= <-]. simpl.
  rewrite <- length_app, (Permutation_length (filter_split_perm _ entries)).
  auto.
Qed.

Lemma partition_report_exact_witness :
  exists st,
    partition_utxos [JStr "addrA"] (JArr [utxo_a; utxo_b]) = Ok st
    /\ owned_utxos st = [utxo_a]
    /\ orphaned_utxos st = [utxo_b]
    /\ orphaned_value_credits st = 300%Z.
Proof.
  destruct (partition_report_exact [JStr "addrA"] [utxo_a; utxo_b])
    as (st & H1 & H2 & H3 & _ & _ & H6 & _).
  - repeat constructor.
  - exists st. rewrite H6, H3. rewrite H2. repeat split; [exact H1|..]; reflexivity.
Defined.

(** C10: an iteration on an entry that is not owned and has no
    [value_credits] field succeeds, files the entry under the orphaned ones
    and leaves the accumulated credits as they were; the entry's credits
    count as 0. *)
Theorem missing_value_counts_zero (ids : pyset) (st : locals)
  (kvs : list (string * json)) :
  dict_get "value_credits" kvs = None ->
  set_contains (default (JStr "") (dict_get "address" kvs)) ids = Ok false ->
  loop_body ids st (JObj kvs)
  = Ok {| owned_utxos := owned_utxos st;
          orphaned_utxos := orphaned_utxos st ++ [JObj kvs];
          orphaned_value_credits := orphaned_value_credits st |}
  /\ credits_of (JObj kvs) = 0%Z.
Proof.
  intros Hnone Hmiss. unfold loop_body, py_get, credits_of.
  unfold rbind at 1 2. rewrite Hmiss, Hnone. simpl.
  by rewrite Z.add_0_r.
Qed.

Lemma missing_value_counts_zero_witness :
  loop_body [JStr "addrA"] locals0 (JObj [("address", JStr "addrB")])
  = Ok {| owned_utxos := [];
          orphaned_utxos := [JObj [("address", JStr "addrB")]];
          orphaned_value_credits := 0 |}
  /\ credits_of (JObj [("address", JStr "addrB")]) = 0%Z.
Proof.
  apply (missing_value_counts_zero [JStr "addrA"] locals0
           [("address", JStr "addrB")]); reflexivity.
Defined.

(** ** The identifier set *)

Lemma key_eq_trans (a b c : json) :
  key_eq a b = true -> key_eq b c = true -> key_eq a c = true.
Proof.
  destruct a as [|[]| | | |], b as [|[]| | | |], c as [|[]| | | |];
    unfold key_eq, as_int, Z.b2z; intros H1 H2;
    try discriminate; try reflexivity;
    rewrite ?Z.eqb_eq, ?String.eqb_eq in *; congruence.
Qed.

Lemma key_eq_sym (a b : json) : key_eq a b = key_eq b a.
Proof.
  destruct a as [|[]| | | |], b as [|[]| | | |];
    unfold key_eq, as_int, Z.b2z; try reflexivity;
    first [apply Z.eqb_sym | apply String.eqb_sym].
Qed.

Lemma set_mem_app (x : json) (s t : pyset) :
  set_mem x (s ++ t) = set_mem x s || set_mem x t.
Proof. apply existsb_app. Qed.

Lemma set_mem_add (x v : json) (s s' : pyset) :
  set_add v s = Ok s' -> set_mem x s' = set_mem x s || key_eq x v.
Proof.
  unfold set_add. destruct (hashable v); [|discriminate].
  destruct (set_mem v s) eqn:Hv; intros [= <-].
  - destruct (key_eq x v) eqn:Hx; [|by rewrite orb_false_r].
    rewrite orb_true_r. unfold set_mem in *.
    apply existsb_exists in Hv as (y & Hy & Hvy).
    apply existsb_exists. exists y. eauto using key_eq_trans.
  - rewrite set_mem_app. simpl. by rewrite orb_false_r.
Qed.

Lemma add_field_dict (key : string) (kvs : list (string * json)) (ids : pyset) :
  hashable (default JNull (dict_get key kvs)) = true ->
  exists ids',
    add_field key (JObj kvs) ids = Ok ids'
    /\ forall x, set_mem x ids' = set_mem x ids || contributes key kvs x.
Proof.
  intros Hh. unfold add_field, py_contains, py_getitem, dict_has, contributes.
  destruct (dict_get key kvs) as [v|]; simpl in *.
  - unfold set_add in *. rewrite Hh. eexists. split; [reflexivity|].
    intros x. apply (set_mem_add x v ids). unfold set_add. by rewrite Hh.
  - exists ids. split; [reflexivity|]. intros x. by rewrite orb_false_r.
Qed.

(** C9, as the code has it: for a wallet record that is a [dict], each of
    [public_key] and [address] is added whenever the key is present,
    whatever its (hashable) value, the empty string included; an absent key
    adds nothing. *)
Theorem add_wallet_adds_present_keys (kvs : list (string * json))
  (ids : pyset) :
  hashable (default JNull (dict_get "public_key" kvs)) = true ->
  hashable (default JNull (dict_get "address" kvs)) = true ->
  exists ids',
    add_wallet (JObj kvs) ids = Ok ids'
    /\ forall x,
         set_mem x ids'
         = set_mem x ids || contributes "public_key" kvs x
           || contributes "address" kvs x.
Proof.
  intros Hp Ha. unfold add_wallet.
  destruct (add_field_dict "public_key" kvs ids Hp) as (ids1 & -> & H1).
  destruct (add_field_dict "address" kvs ids1 Ha) as (ids2 & H2 & H3).
  exists ids2. split; [exact H2|].
  intros x. by rewrite H3, H1.
Qed.

Lemma add_wallet_adds_present_keys_witness :
  exists ids',
    add_wallet wallet_blank [JStr "addrA"] = Ok ids'
    /\ forall x,
         set_mem x ids'
         = set_mem x [JStr "addrA"]
           || contributes "public_key" [("address", JStr "")] x
           || contributes "address" [("address", JStr "")] x.
Proof.
  apply (add_wallet_adds_present_keys [("address", JStr "")] [JStr "addrA"]);
    reflexivity.
Defined.

(** C9 as stated fails: a record whose address is the empty string puts the
    empty string into the identifier set, also through the scan of the
    wallet directory. *)
Lemma empty_address_is_added :
  add_wallet wallet_blank [] = Ok [JStr ""]
  /\ returned (scan_wallets scenario_codec wallets_path ["wallet_blank.json"]
                 [] blank_wallet_fs)
     = Ok [JStr ""]
  /\ set_mem (JStr "") [JStr ""] = true.
Proof. vm_compute. auto. Qed.

(** ** Computations that only read *)

Lemma quiet_app (fs : gmap (list string) node)
  (t1 t2 : list (event * gmap (list string) node)) :
  quiet fs t1 -> quiet fs t2 -> quiet fs (t1 ++ t2).
Proof. apply Forall_app_2. Qed.

Lemma readonly_ret {A} (a : A) : readonly (ioret a).
Proof. intros fs. split; [reflexivity|constructor]. Qed.

Lemma readonly_raise {A} (e : exn) : readonly (@ioraise A e).
Proof. intros fs. split; [reflexivity|constructor]. Qed.

Lemma readonly_lift {A} (r : result A) : readonly (lift r).
Proof. intros fs. split; [reflexivity|constructor]. Qed.

Lemma readonly_bind {A B} (m : io A) (k : A -> io B) :
  readonly m -> (forall a, readonly (k a)) -> readonly (iobind m k).
Proof.
  intros Hm Hk fs. destruct (Hm fs) as [Hf Hq]. unfold iobind.
  destruct (returned (m fs)) as [a|e]; simpl; [|done].
  rewrite Hf. destruct (Hk a fs) as [Hf' Hq'].
  split; [done|]. by apply quiet_app.
Qed.

Lemma readonly_syscall {A} (ev : event)
  (op : gmap (list string) node -> result A * gmap (list string) node) :
  reads ev = true -> (forall fs, snd (op fs) = fs) -> readonly (syscall ev op).
Proof.
  intros Hev Hop fs. unfold syscall. simpl. rewrite Hop.
  split; [done|]. by repeat constructor.
Qed.

Lemma fs_read_files (p : list string) (fs : gmap (list string) node) :
  snd (fs_read p fs) = fs.
Proof. unfold fs_read. by destruct (fs !! p) as [[]|]. Qed.

Lemma fs_listdir_files (p : list string) (fs : gmap (list string) node) :
  snd (fs_listdir p fs) = fs.
Proof. unfold fs_listdir. by destruct (fs !! p) as [[]|]. Qed.

Lemma readonly_read_json (codec : json_codec) (p : list string) :
  readonly (read_json codec p).
Proof.
  apply readonly_bind.
  - apply readonly_syscall; [done|]. apply fs_read_files.
  - intros data. destruct (json_loads codec data);
      [apply readonly_ret | apply readonly_raise].
Qed.

Lemma readonly_scan_wallets (codec : json_codec) (w : list string)
  (names : list string) :
  forall ids, readonly (scan_wallets codec w names ids).
Proof.
  induction names as [|name names IH]; intros ids; simpl.
  - apply readonly_ret.
  - destruct (_ && _); [|apply IH].
    apply readonly_bind; [apply readonly_read_json|]. intros d.
    apply readonly_bind; [apply readonly_lift|]. intros ids'. apply IH.
Qed.

Lemma readonly_reconcile (codec : json_codec) (u w : list string) :
  readonly (reconcile codec u w).
Proof.
  apply readonly_bind; [by apply readonly_syscall|]. intros found.
  destruct found; simpl; [|apply readonly_raise].
  apply readonly_bind; [apply readonly_read_json|]. intros utxos.
  apply readonly_bind;
    [apply readonly_syscall; [done|apply fs_listdir_files]|].
  intros names.
  apply readonly_bind; [apply readonly_scan_wallets|]. intros ids.
  apply readonly_bind; [apply readonly_lift|]. intros st.
  apply readonly_bind; [apply readonly_lift|]. intros rep.
  apply readonly_ret.
Qed.

(** C3: a dry run, whatever it returns or raises, leaves every file as it
    was, and every call in its log is a reading one: no copy, no write. *)
Theorem dry_run_writes_nothing (codec : json_codec) (u w : list string)
  (now : datetime) (fs : gmap (list string) node) :
  files (clean_orphaned_utxos codec u w now true fs) = fs
  /\ quiet fs (trace (clean_orphaned_utxos codec u w now true fs)).
Proof.
  apply (readonly_bind (reconcile codec u w)).
  - apply readonly_reconcile.
  - intros sr. simpl. apply readonly_ret.
Qed.

(** ** Copying and storing *)

Lemma fs_store_existing (p : list string) (old data : string)
  (fs : gmap (list string) node) :
  fs !! p = Some (File old) ->
  fs_store p data fs = (Ok tt, <[p := File data]> fs).
Proof. intros H. unfold fs_store. by rewrite H. Qed.

Lemma fs_store_raise (p : list string) (data : string)
  (fs fs' : gmap (list string) node) (e : exn) :
  fs_store p data fs = (Raise e, fs') -> fs' = fs.
Proof.
  unfold fs_store.
  destruct (fs !! p) as [[]|]; [congruence..|].
  destruct (fs !! parent p) as [[]|]; congruence.
Qed.

(** A successful store changes the node at [p], and the listing of its
    directory when the file is new; nothing else. *)
Lemma fs_store_ok (p : list string) (data : string)
  (fs fs' : gmap (list string) node) :
  fs_store p data fs = (Ok tt, fs') ->
  fs' !! p = Some (File data)
  /\ forall q, q <> p ->
       fs' !! q = fs !! q
       \/ (q = parent p /\ fs !! p = None
           /\ exists names, fs !! q = Some (Dir names)
                /\ fs' !! q = Some (Dir (add_name (basename p) names))).
Proof.
  unfold fs_store.
  destruct (fs !! p) as [[old|names]|] eqn:Hp; [| discriminate |].
  - intros [= <-]. split; [apply lookup_insert_eq|].
    intros q Hq. left. by apply lookup_insert_ne.
  - destruct (fs !! parent p) as [[|names]|] eqn:Hpar; try discriminate.
    intros [= <-]. split; [apply lookup_insert_eq|].
    intros q Hq. rewrite lookup_insert_ne by done.
    destruct (decide (q = parent p)) as [->|Hne].
    + right. rewrite lookup_insert_eq. eauto.
    + left. by apply lookup_insert_ne.
Qed.

Lemma fs_copy2_raise (src dst : list string)
  (fs fs' : gmap (list string) node) (e : exn) :
  fs_copy2 src dst fs = (Raise e, fs') -> fs' = fs.
Proof.
  unfold fs_copy2. destruct (fs !! src) as [nd|]; [|congruence].
  case_bool_decide; [congruence|].
  destruct nd; [|congruence]. apply fs_store_raise.
Qed.

(** A successful copy: the source is a file, the target is another path,
    the target then holds the source's bytes, the source is untouched, and
    apart from the target only the listing of its directory can differ. *)
Lemma fs_copy2_ok (src dst : list string) (fs fs' : gmap (list string) node) :
  fs_copy2 src dst fs = (Ok tt, fs') ->
  exists data,
    fs !! src = Some (File data)
    /\ copy_target src dst fs <> src
    /\ fs' !! copy_target src dst fs = Some (File data)
    /\ fs' !! src = Some (File data)
    /\ forall q, q <> copy_target src dst fs ->
         fs' !! q = fs !! q
         \/ (q = parent (copy_target src dst fs)
             /\ fs !! copy_target src dst fs = None
             /\ exists names, fs !! q = Some (Dir names)
                  /\ fs' !! q
                     = Some (Dir (add_name
                                    (basename (copy_target src dst fs))
                                    names))).
Proof.
  unfold fs_copy2. destruct (fs !! src) as [nd|] eqn:Hsrc; [|discriminate].
  case_bool_decide as Hsame; [discriminate|].
  destruct nd as [data|]; [|discriminate].
  intros Hst. apply fs_store_ok in Hst as [Ht Hrest].
  exists data. split; [done|]. split; [done|]. split; [done|].
  split; [|done].
  destruct (Hrest src Hsame) as [->|(_ & _ & names & Hd & _)]; [done|].
  congruence.
Qed.

(** ** The two phases of a run *)

Lemma rewrite_store_cases (codec : json_codec) (u : list string)
  (now : datetime) (st : locals) (fs : gmap (list string) node) :
  let b := backup_file u now in
  let new := json_dumps codec (JArr (owned_utxos st)) in
  (exists e,
      fs_copy2 u b fs = (Raise e, fs)
      /\ rewrite_store codec u now st fs
         = {| returned := Raise e; files := fs; trace := [(EvCopy u b, fs)] |})
  \/ (exists fs1,
        fs_copy2 u b fs = (Ok tt, fs1)
        /\ rewrite_store codec u now st fs
           = {| returned := Ok tt;
                files := <[u := File new]> fs1;
                trace := [(EvCopy u b, fs1);
                          (EvOpenWrite u, <[u := File ""]> fs1);
                          (EvWrite u, <[u := File new]> fs1)] |}).
Proof.
  intros b new. unfold rewrite_store, iobind, syscall. fold b. simpl.
  destruct (fs_copy2 u b fs) as [[[]|e] fs1] eqn:Hc; simpl.
  - right. exists fs1. split; [done|].
    destruct (fs_copy2_ok _ _ _ _ Hc) as (data & _ & _ & _ & Hu & _).
    rewrite (fs_store_existing u data "" fs1 Hu). simpl.
    rewrite (fs_store_existing u "" _ (<[u := File ""]> fs1))
      by apply lookup_insert_eq.
    simpl. fold new. by rewrite insert_insert_eq.
  - left. exists e. apply fs_copy2_raise in Hc as Hfs. subst fs1. done.
Qed.

Lemma clean_when_reconcile_raises (codec : json_codec) (u w : list string)
  (now : datetime) (dry_run : bool) (fs : gmap (list string) node) (e : exn) :
  returned (reconcile codec u w fs) = Raise e ->
  clean_orphaned_utxos codec u w now dry_run fs
  = {| returned := Raise e; files := fs;
       trace := trace (reconcile codec u w fs) |}.
Proof.
  intros H. unfold clean_orphaned_utxos, iobind. rewrite H.
  by rewrite (proj1 (readonly_reconcile codec u w fs)).
Qed.

Lemma clean_without_rewrite (codec : json_codec) (u w : list string)
  (now : datetime) (dry_run : bool) (fs : gmap (list string) node)
  (st : locals) (rep : report) :
  returned (reconcile codec u w fs) = Ok (st, rep) ->
  negb dry_run && (0 <? report_orphaned_utxos rep)%nat = false ->
  clean_orphaned_utxos codec u w now dry_run fs
  = {| returned := Ok rep; files := fs;
       trace := trace (reconcile codec u w fs) |}.
Proof.
  intros H Hg. unfold clean_orphaned_utxos, iobind. rewrite H.
  cbn [fst snd]. rewrite Hg. unfold ioret. cbn [returned files trace].
  rewrite (proj1 (readonly_reconcile codec u w fs)), app_nil_r. done.
Qed.

Lemma clean_with_rewrite (codec : json_codec) (u w : list string)
  (now : datetime) (fs : gmap (list string) node)
  (st : locals) (rep : report) :
  returned (reconcile codec u w fs) = Ok (st, rep) ->
  (0 < report_orphaned_utxos rep)%nat ->
  let rw := rewrite_store codec u now st fs in
  clean_orphaned_utxos codec u w now false fs
  = {| returned := (let? _ := returned rw in Ok rep);
       files := files rw;
       trace := trace (reconcile codec u w fs) ++ trace rw |}.
Proof.
  intros H Hpos rw. unfold clean_orphaned_utxos. unfold iobind at 1.
  rewrite H. cbn [fst snd negb andb].
  replace (0 <? report_orphaned_utxos rep)%nat with true
    by (symmetry; by apply Nat.ltb_lt).
  rewrite (proj1 (readonly_reconcile codec u w fs)).
  unfold iobind. fold rw. destruct (returned rw) as [[]|e];
    unfold ioret, rbind; cbn [returned files trace].
  - by rewrite app_nil_r.
  - done.
Qed.

(** ** What the reading phase returns *)

Lemma returned_bind {A B} (m : io A) (k : A -> io B)
  (fs : gmap (list string) node) :
  readonly m ->
  returned (iobind m k fs) = let? a := returned (m fs) in returned (k a fs).
Proof.
  intros Hm. unfold iobind. destruct (returned (m fs)) as [a|e]; simpl; [|done].
  by rewrite (proj1 (Hm fs)).
Qed.

Lemma read_json_returned (codec : json_codec) (p : list string)
  (fs : gmap (list string) node) :
  returned (read_json codec p fs)
  = match fs !! p with
    | Some (File data) =>
        match json_loads codec data with
        | Some v => Ok v
        | None => Raise JSONDecodeError
        end
    | Some (Dir _) => Raise (IsADirectoryError p)
    | None => Raise (FileNotFoundError p)
    end.
Proof.
  unfold read_json.
  rewrite returned_bind by (apply readonly_syscall; [done|apply fs_read_files]).
  unfold syscall, fs_read. simpl.
  destruct (fs !! p) as [[data|names]|]; simpl; try done.
  by destruct (json_loads codec data).
Qed.

Lemma scan_wallets_returned_cons (codec : json_codec) (w : list string)
  (name : string) (names : list string) (ids : pyset)
  (fs : gmap (list string) node) :
  returned (scan_wallets codec w (name :: names) ids fs)
  = if startswith "wallet_" name && endswith ".json" name
    then
      let? wallet_data := returned (read_json codec (child w name) fs) in
      let? ids' := add_wallet wallet_data ids in
      returned (scan_wallets codec w names ids' fs)
    else returned (scan_wallets codec w names ids fs).
Proof.
  cbn [scan_wallets]. destruct (_ && _); [|done].
  rewrite returned_bind by apply readonly_read_json.
  destruct (returned (read_json codec (child w name) fs)) as [d|e]; simpl;
    [|done].
  rewrite returned_bind by apply readonly_lift.
  done.
Qed.

Lemma reconcile_returned (codec : json_codec) (u w : list string)
  (fs : gmap (list string) node) :
  returned (reconcile codec u w fs)
  = match fs !! u with
    | None => Raise (FileNotFoundError u)
    | Some (Dir _) => Raise (IsADirectoryError u)
    | Some (File data) =>
        match json_loads codec data with
        | None => Raise JSONDecodeError
        | Some utxos =>
            match fs !! w with
            | None => Raise (FileNotFoundError w)
            | Some (File _) => Raise (NotADirectoryError w)
            | Some (Dir names) =>
                let? ids := returned (scan_wallets codec w names [] fs) in
                let? st := partition_utxos ids utxos in
                let? rep := make_report st in
                Ok (st, rep)
            end
        end
    end.
Proof.
  unfold reconcile.
  rewrite returned_bind by (by apply readonly_syscall).
  unfold syscall at 1, fs_exists. cbn [returned fst rbind].
  destruct (fs !! u) as [nd|] eqn:Hu.
  2:{ rewrite bool_decide_eq_false_2 by (by intros [? ?]). done. }
  rewrite bool_decide_eq_true_2 by eauto. cbn [negb].
  rewrite returned_bind by apply readonly_read_json.
  rewrite read_json_returned, Hu.
  destruct nd as [data|?]; [|done].
  destruct (json_loads codec data) as [utxos|]; [|done]. cbn [rbind].
  rewrite returned_bind
    by (apply readonly_syscall; [done|apply fs_listdir_files]).
  unfold syscall at 1, fs_listdir. cbn [returned fst].
  destruct (fs !! w) as [[?|names]|]; [done| |done]. cbn [rbind fst].
  rewrite returned_bind by apply readonly_scan_wallets.
  destruct (returned (scan_wallets codec w names [] fs)) as [ids|e];
    [|done]. cbn [rbind].
  rewrite returned_bind by apply readonly_lift.
  unfold lift at 1. cbn [returned].
  destruct (partition_utxos ids utxos) as [st|e]; [|done]. cbn [rbind].
  rewrite returned_bind by apply readonly_lift.
  unfold lift at 1. cbn [returned].
  by destruct (make_report st).
Qed.

(** A run with [dry_run=False] that found orphaned entries either fails in
    the copy, with every file as before, or makes exactly three writing
    calls after the reading ones: the copy, the truncating open, the
    dump. *)
Lemma execute_rewrite_shape (codec : json_codec) (u w : list string)
  (now : datetime) (fs : gmap (list string) node)
  (st : locals) (rep : report) :
  returned (reconcile codec u w fs) = Ok (st, rep) ->
  (0 < report_orphaned_utxos rep)%nat ->
  let c := clean_orphaned_utxos codec u w now false fs in
  let b := backup_file u now in
  let new := json_dumps codec (JArr (owned_utxos st)) in
  (exists e,
      returned c = Raise e /\ files c = fs
      /\ fs_copy2 u b fs = (Raise e, fs)
      /\ trace c = trace (reconcile codec u w fs) ++ [(EvCopy u b, fs)])
  \/ (exists fs1,
        returned c = Ok rep
        /\ files c = <[u := File new]> fs1
        /\ fs_copy2 u b fs = (Ok tt, fs1)
        /\ trace c
           = trace (reconcile codec u w fs)
             ++ [(EvCopy u b, fs1);
                 (EvOpenWrite u, <[u := File ""]> fs1);
                 (EvWrite u, <[u := File new]> fs1)]).
Proof.
  intros Hrec Hpos c b new. subst c.
  rewrite (clean_with_rewrite codec u w now fs st rep Hrec Hpos).
  cbn [returned files trace].
  destruct (rewrite_store_cases codec u now st fs)
    as [(e & Hc & ->)|(fs1 & Hc & ->)]; cbn [returned files trace rbind].
  - left. exists e. done.
  - right. exists fs1. done.
Qed.

(** The files a successful copy leaves differ from the earlier ones in no
    file but the target. *)
Lemma fs_copy2_other_files (src dst : list string)
  (fs fs' : gmap (list string) node) :
  fs_copy2 src dst fs = (Ok tt, fs') ->
  forall q data, q <> copy_target src dst fs ->
    fs' !! q = Some (File data) <-> fs !! q = Some (File data).
Proof.
  intros Hc q data Hq.
  destruct (fs_copy2_ok _ _ _ _ Hc) as (d & _ & _ & _ & _ & Hrest).
  destruct (Hrest q Hq) as [->|(_ & _ & names & -> & ->)]; [done|].
  split; discriminate.
Qed.






Lemma clean_ok_inv (codec : json_codec) (u w : list string) (now : datetime)
  (dry_run : bool) (fs : gmap (list string) node) (rep : report) :
  returned (clean_orphaned_utxos codec u w now dry_run fs) = Ok rep ->
  exists st, returned (reconcile codec u w fs) = Ok (st, rep).
Proof.
  destruct (returned (reconcile codec u w fs)) as [[st rep']|e] eqn:Hrec.
  - destruct (negb dry_run && (0 <? report_orphaned_utxos rep')%nat) eqn:Hg.
    + apply andb_true_iff in Hg as [Hd Hpos%Nat.ltb_lt].
      destruct dry_run; [discriminate|].
      rewrite (clean_with_rewrite _ _ _ now _ _ _ Hrec Hpos).
      cbn [returned].
      destruct (returned (rewrite_store codec u now st fs)); simpl;
        [|discriminate].
      intros [= <-]. eauto.
    + rewrite (clean_without_rewrite _ _ _ now _ _ _ _ Hrec Hg).
      simpl. intros [= <-]. eauto.
  - rewrite (clean_when_reconcile_raises _ _ _ _ _ _ _ Hrec). discriminate.
Qed.

(** ** Backup before overwrite *)

(** The copy of a store that is a file succeeds exactly when its target is
    writable. *)
Lemma fs_copy2_writable (u : list string) (now : datetime)
  (fs : gmap (list string) node) (data : string) :
  fs !! u = Some (File data) ->
  backup_writable u now fs ->
  exists fs1, fs_copy2 u (backup_file u now) fs = (Ok tt, fs1).
Proof.
  intros Hu [Hne Hcase]. unfold fs_copy2. rewrite Hu.
  rewrite bool_decide_eq_false_2 by (intros E; by apply Hne).
  unfold fs_store.
  destruct Hcase as [[old ->]|[-> [names ->]]]; eauto.
Qed.

Lemma fs_copy2_not_writable (u : list string) (now : datetime)
  (fs : gmap (list string) node) (data : string) :
  fs !! u = Some (File data) ->
  ~ backup_writable u now fs ->
  exists e, fs_copy2 u (backup_file u now) fs = (Raise e, fs).
Proof.
  intros Hu Hnot.
  destruct (fs_copy2 u (backup_file u now) fs) as [[[]|e] fs1] eqn:Hc.
  - destruct Hnot.
    destruct (fs_copy2_ok _ _ _ _ Hc) as (d & _ & Hne & _).
    split; [done|].
    unfold fs_copy2 in Hc. rewrite Hu in Hc.
    rewrite bool_decide_eq_false_2 in Hc by (intros E; by apply Hne).
    unfold fs_store in Hc.
    destruct (fs !! copy_target u (backup_file u now) fs) as [[old|?]|];
      [eauto|discriminate|].
    destruct (fs !! parent (copy_target u (backup_file u now) fs))
      as [[?|names]|]; [discriminate|eauto|discriminate].
  - apply fs_copy2_raise in Hc as Hfs. subst fs1. eauto.
Qed.

Lemma reconcile_ok_store (codec : json_codec) (u w : list string)
  (fs : gmap (list string) node) (st : locals) (rep : report) :
  returned (reconcile codec u w fs) = Ok (st, rep) ->
  exists data, fs !! u = Some (File data).
Proof.
  rewrite reconcile_returned.
  destruct (fs !! u) as [[data|?]|]; [eauto|discriminate..].
Qed.

(** C2, as the code has it: a run with [dry_run=False] whose reading phase
    gives the report.  With no orphaned entry it returns the report, every
    file is as before and only reading calls were made: no backup, no write.
    With orphaned entries its first writing call is the copy.  When the
    target of the copy is writable, the copy creates or changes no file but
    the target, which from then on holds the store's bytes as they were
    before the run, the store still holding them at that moment; and when
    the run returns, the calls after the copy are exactly the truncating
    open and the dump, which change no file but the store.  When the target
    is not writable, the copy raises, the run ends with that exception and
    every file is as before: no backup, and the store not written. *)
Theorem execute_backs_up_first (codec : json_codec) (u w : list string)
  (now : datetime) (fs : gmap (list string) node)
  (st : locals) (rep : report) :
  let c := clean_orphaned_utxos codec u w now false fs in
  let b := backup_file u now in
  let tgt := copy_target u b fs in
  returned (reconcile codec u w fs) = Ok (st, rep) ->
  (report_orphaned_utxos rep = 0%nat ->
   returned c = Ok rep /\ files c = fs /\ quiet fs (trace c))
  /\ ((0 < report_orphaned_utxos rep)%nat ->
      backup_writable u now fs ->
      exists data t0 fs1 rest,
        fs !! u = Some (File data)
        /\ trace c = t0 ++ (EvCopy u b, fs1) :: rest
        /\ quiet fs t0
        /\ fs1 !! tgt = Some (File data)
        /\ fs1 !! u = Some (File data)
        /\ (forall q d, q <> tgt ->
              fs1 !! q = Some (File d) <-> fs !! q = Some (File d))
        /\ Forall (fun s => snd s !! tgt = Some (File data)) rest
        /\ files c !! tgt = Some (File data)
        /\ (forall rep', returned c = Ok rep' ->
              rep' = rep
              /\ (exists fs2,
                    rest = [(EvOpenWrite u, fs2); (EvWrite u, files c)])
              /\ forall q, q <> u -> files c !! q = fs1 !! q))
  /\ ((0 < report_orphaned_utxos rep)%nat ->
      ~ backup_writable u now fs ->
      exists e,
        returned c = Raise e
        /\ files c = fs
        /\ trace c = trace (reconcile codec u w fs) ++ [(EvCopy u b, fs)]).
Proof.
  intros c b tgt Hrec. subst c.
  destruct (reconcile_ok_store _ _ _ _ _ _ Hrec) as [data Hu].
  split; [|split].
  - intros Hz.
    rewrite (clean_without_rewrite _ _ _ now false _ _ _ Hrec)
      by (by rewrite Hz).
    cbn [returned files trace]. split; [done|]. split; [done|].
    apply readonly_reconcile.
  - intros Hpos Hwr.
    destruct (fs_copy2_writable u now fs data Hu Hwr) as [fs1' Hok].
    destruct (execute_rewrite_shape codec u w now fs st rep Hrec Hpos)
      as [(e & _ & _ & Hc & _)|(fs1 & Hr & Hf & Hc & Ht)]; [congruence|].
    destruct (fs_copy2_ok _ _ _ _ Hc) as (d & Hu' & Hne & Htgt & Hu1 & _).
    assert (d = data) as -> by congruence.
    exists data, (trace (reconcile codec u w fs)), fs1,
      [(EvOpenWrite u, <[u := File ""]> fs1);
       (EvWrite u,
        <[u := File (json_dumps codec (JArr (owned_utxos st)))]> fs1)].
    split; [done|]. split; [by rewrite Ht|].
    split; [apply readonly_reconcile|]. split; [done|]. split; [done|].
    split; [apply (fs_copy2_other_files _ _ _ _ Hc)|].
    split.
    { repeat constructor; cbn [snd]; by rewrite lookup_insert_ne. }
    rewrite Hf. split; [by rewrite lookup_insert_ne|].
    intros rep' Hr'. rewrite Hr in Hr'. injection Hr' as <-.
    split; [done|]. split; [eauto|].
    intros q Hq. by rewrite lookup_insert_ne.
  - intros Hpos Hnot.
    destruct (fs_copy2_not_writable u now fs data Hu Hnot) as [e He].
    destruct (execute_rewrite_shape codec u w now fs st rep Hrec Hpos)
      as [(e' & Hr & Hf & Hc & Ht)|(fs1 & _ & _ & Hc & _)]; [|congruence].
    exists e'. done.
Qed.

Lemma execute_backs_up_first_witness :
  let c := clean_orphaned_utxos scenario_codec store_path wallets_path noon
             false scenario_fs in
  let b := backup_file store_path noon in
  let tgt := copy_target store_path b scenario_fs in
  let rep := {| total_utxos := 2; report_owned_utxos := 1;
                report_orphaned_utxos := 1;
                report_orphaned_value_credits := 300 |} in
  (report_orphaned_utxos rep = 0%nat ->
   returned c = Ok rep /\ files c = scenario_fs
   /\ quiet scenario_fs (trace c))
  /\ ((0 < report_orphaned_utxos rep)%nat ->
      backup_writable store_path noon scenario_fs ->
      exists data t0 fs1 rest,
        scenario_fs !! store_path = Some (File data)
        /\ trace c = t0 ++ (EvCopy store_path b, fs1) :: rest
        /\ quiet scenario_fs t0
        /\ fs1 !! tgt = Some (File data)
        /\ fs1 !! store_path = Some (File data)
        /\ (forall q d, q <> tgt ->
              fs1 !! q = Some (File d) <-> scenario_fs !! q = Some (File d))
        /\ Forall (fun s => snd s !! tgt = Some (File data)) rest
        /\ files c !! tgt = Some (File data)
        /\ (forall rep', returned c = Ok rep' ->
              rep' = rep
              /\ (exists fs2,
                    rest = [(EvOpenWrite store_path, fs2);
                            (EvWrite store_path, files c)])
              /\ forall q, q <> store_path -> files c !! q = fs1 !! q))
  /\ ((0 < report_orphaned_utxos rep)%nat ->
      ~ backup_writable store_path noon scenario_fs ->
      exists e,
        returned c = Raise e
        /\ files c = scenario_fs
        /\ trace c
           = trace (reconcile scenario_codec store_path wallets_path
                      scenario_fs)
             ++ [(EvCopy store_path b, scenario_fs)]).
Proof.
  apply (execute_backs_up_first scenario_codec store_path wallets_path noon
           scenario_fs
           {| owned_utxos := [utxo_a]; orphaned_utxos := [utxo_b];
              orphaned_value_credits := 300 |}).
  vm_compute. reflexivity.
Defined.

(** In the scenario the target of the copy is writable: the path of the
    backup is free in the directory of the store. *)
Example scenario_backup_writable :
  backup_writable store_path noon scenario_fs.
Proof.
  split; [discriminate|]. right. split; [vm_compute; reflexivity|].
  eexists. vm_compute. reflexivity.
Qed.

(** C2 as stated fails: with the path of the backup taken by a directory
    that holds a directory named like the store, the run finds one orphaned
    entry, the copy raises [IsADirectoryError], and no backup file is
    made: the run ends with every file as before. *)
Lemma backup_copy_can_fail :
  let c := clean_orphaned_utxos scenario_codec store_path wallets_path noon
             false blocked_backup_fs in
  (exists st rep,
      returned (reconcile scenario_codec store_path wallets_path
                  blocked_backup_fs) = Ok (st, rep)
      /\ report_orphaned_utxos rep = 1%nat)
  /\ returned c
     = Raise (IsADirectoryError
                ["data"; "wallet_utxos.json.orphan_backup_20250101_120000";
                 "wallet_utxos.json"])
  /\ files c = blocked_backup_fs
  /\ map fst (trace c)
     = [EvExists store_path; EvOpenRead store_path; EvListdir wallets_path;
        EvOpenRead ["wallets"; "wallet_a.json"];
        EvCopy store_path
          ["data"; "wallet_utxos.json.orphan_backup_20250101_120000"]].
Proof.
  assert (Hrec : returned (reconcile scenario_codec store_path wallets_path
                             blocked_backup_fs)
                 = Ok ({| owned_utxos := [utxo_a]; orphaned_utxos := [utxo_b];
                          orphaned_value_credits := 300 |},
                       {| total_utxos := 2; report_owned_utxos := 1;
                          report_orphaned_utxos := 1;
                          report_orphaned_value_credits := 300 |}))
    by (vm_compute; reflexivity).
  split; [eexists _, _; split; [exact Hrec|reflexivity]|].
  split; [vm_compute; reflexivity|].
  split; [|vm_compute; reflexivity].
  destruct (execute_rewrite_shape scenario_codec store_path wallets_path noon
              blocked_backup_fs _ _ Hrec)
    as [(e & _ & Hf & _)|(fs1 & Hr & _)]; [cbn; lia|done|].
  vm_compute in Hr. discriminate Hr.
Qed.

(** The scenario as a dry run: the report counts one owned and one orphaned
    entry worth 300 credits, and the files are as before. *)
Example scenario_dry_run :
  let c := clean_orphaned_utxos scenario_codec store_path wallets_path noon
             true scenario_fs in
  returned c
  = Ok {| total_utxos := 2; report_owned_utxos := 1;
          report_orphaned_utxos := 1; report_orphaned_value_credits := 300 |}
  /\ files c = scenario_fs.
Proof.
  split; [vm_compute; reflexivity|].
  apply (readonly_bind (reconcile scenario_codec store_path wallets_path)).
  - apply readonly_reconcile.
  - intros sr. apply readonly_ret.
Qed.

(** The scenario run with [dry_run=False]: one orphaned entry worth 300
    credits is reported, the backup holds the two-entry store and the store
    holds the owned entry. *)
Example scenario_execute :
  let c := clean_orphaned_utxos scenario_codec store_path wallets_path noon
             false scenario_fs in
  returned c
  = Ok {| total_utxos := 2; report_owned_utxos := 1;
          report_orphaned_utxos := 1; report_orphaned_value_credits := 300 |}
  /\ files c !! ["data"; "wallet_utxos.json.orphan_backup_20250101_120000"]
     = Some (File (dump 0 (JArr [utxo_a; utxo_b])))
  /\ files c !! store_path = Some (File (dump 0 (JArr [utxo_a])))
  /\ map fst (trace c)
     = [EvExists store_path; EvOpenRead store_path; EvListdir wallets_path;
        EvOpenRead ["wallets"; "wallet_a.json"];
        EvCopy store_path
          ["data"; "wallet_utxos.json.orphan_backup_20250101_120000"];
        EvOpenWrite store_path; EvWrite store_path].
Proof. vm_compute. auto. Qed.

(** ** The overwrite is in place *)

(** C5, as the code has it: the store is replaced in place.  In a
    successful run that found orphaned entries the store holds its old
    bytes after the copy, is empty after [open(utxo_file, 'w')], and holds
    the dump of the owned entries after the [with] block; the backup holds
    the old bytes at each of the three moments. *)
Theorem rewrite_is_in_place (codec : json_codec) (u w : list string)
  (now : datetime) (fs : gmap (list string) node) (rep : report) :
  let c := clean_orphaned_utxos codec u w now false fs in
  let b := backup_file u now in
  let tgt := copy_target u b fs in
  returned c = Ok rep ->
  (0 < report_orphaned_utxos rep)%nat ->
  exists st data t0 fs1 fs2 fs3,
    returned (reconcile codec u w fs) = Ok (st, rep)
    /\ trace c
       = t0 ++ [(EvCopy u b, fs1); (EvOpenWrite u, fs2); (EvWrite u, fs3)]
    /\ quiet fs t0
    /\ files c = fs3
    /\ fs !! u = Some (File data)
    /\ fs1 !! u = Some (File data)
    /\ fs2 !! u = Some (File "")
    /\ fs3 !! u = Some (File (json_dumps codec (JArr (owned_utxos st))))
    /\ fs1 !! tgt = Some (File data)
    /\ fs2 !! tgt = Some (File data)
    /\ fs3 !! tgt = Some (File data).
Proof.
  intros c b tgt Hret Hpos. subst c.
  destruct (clean_ok_inv _ _ _ _ _ _ _ Hret) as [st Hrec].
  destruct (execute_rewrite_shape codec u w now fs st rep Hrec Hpos)
    as [(e & Hr & _)|(fs1 & _ & Hf & Hc & Ht)]; [congruence|].
  destruct (fs_copy2_ok _ _ _ _ Hc) as (data & Hu & Hne & Htgt & Hu1 & _).
  exists st, data, (trace (reconcile codec u w fs)), fs1,
    (<[u := File ""]> fs1),
    (<[u := File (json_dumps codec (JArr (owned_utxos st)))]> fs1).
  split; [done|]. split; [done|].
  split; [apply readonly_reconcile|].
  split; [done|]. split; [done|]. split; [done|].
  split; [apply lookup_insert_eq|]. split; [apply lookup_insert_eq|].
  split; [done|]. split; by rewrite lookup_insert_ne.
Qed.

Lemma rewrite_is_in_place_witness :
  exists st data t0 fs1 fs2 fs3,
    returned (reconcile scenario_codec store_path wallets_path scenario_fs)
    = Ok (st, {| total_utxos := 2; report_owned_utxos := 1;
                 report_orphaned_utxos := 1;
                 report_orphaned_value_credits := 300 |})
    /\ trace (clean_orphaned_utxos scenario_codec store_path wallets_path noon
                false scenario_fs)
       = t0 ++ [(EvCopy store_path (backup_file store_path noon), fs1);
                (EvOpenWrite store_path, fs2); (EvWrite store_path, fs3)]
    /\ quiet scenario_fs t0
    /\ files (clean_orphaned_utxos scenario_codec store_path wallets_path noon
                false scenario_fs) = fs3
    /\ scenario_fs !! store_path = Some (File data)
    /\ fs1 !! store_path = Some (File data)
    /\ fs2 !! store_path = Some (File "")
    /\ fs3 !! store_path
       = Some (File (json_dumps scenario_codec (JArr (owned_utxos st))))
    /\ fs1 !! copy_target store_path (backup_file store_path noon) scenario_fs
       = Some (File data)
    /\ fs2 !! copy_target store_path (backup_file store_path noon) scenario_fs
       = Some (File data)
    /\ fs3 !! copy_target store_path (backup_file store_path noon) scenario_fs
       = Some (File data).
Proof.
  apply (rewrite_is_in_place scenario_codec store_path wallets_path noon
           scenario_fs).
  - vm_compute. reflexivity.
  - simpl. lia.
Defined.

(** C5 as stated fails: in the scenario a call leaves the store holding
    neither the complete old nor the complete new content. *)
Lemma store_seen_empty :
  ~ Forall
      (fun s : event * gmap (list string) node =>
         snd s !! store_path = Some (File (dump 0 (JArr [utxo_a; utxo_b])))
         \/ snd s !! store_path = Some (File (dump 0 (JArr [utxo_a]))))
      (trace (clean_orphaned_utxos scenario_codec store_path wallets_path
                noon false scenario_fs)).
Proof.
  intros H.
  assert (Hex : existsb
                  (fun s : event * gmap (list string) node =>
                     match snd s !! store_path with
                     | Some (File data) => String.eqb data ""
                     | _ => false
                     end)
                  (trace (clean_orphaned_utxos scenario_codec store_path
                            wallets_path noon false scenario_fs)) = true)
    by (vm_compute; reflexivity).
  apply existsb_exists in Hex as (s & Hin & Hs).
  rewrite Forall_forall in H. apply list_elem_of_In in Hin.
  destruct (H s Hin) as [Heq|Heq]; rewrite Heq in Hs; vm_compute in Hs;
    discriminate.
Qed.


(** ** The name of the backup *)

Lemma parent_child (p : list string) (name : string) :
  parent (child p name) = p.
Proof. apply removelast_last. Qed.

Lemma basename_child (p : list string) (name : string) :
  basename (child p name) = name.
Proof. apply last_last. Qed.

(** C6, as the code has it: the backup of a successful run that found
    orphaned entries sits in the store's directory under the fixed name
    [wallet_utxos.json.orphan_backup_] followed by the fifteen characters of
    the timestamp (when that path is not a directory), and holds the store's
    earlier bytes; the name is the store's own name plus marker and
    timestamp when the store is called [wallet_utxos.json]. *)
Theorem backup_name_is_fixed (codec : json_codec) (u w : list string)
  (now : datetime) (fs : gmap (list string) node) (rep : report) :
  let c := clean_orphaned_utxos codec u w now false fs in
  returned c = Ok rep ->
  (0 < report_orphaned_utxos rep)%nat ->
  (forall names, fs !! backup_file u now <> Some (Dir names)) ->
  exists data,
    fs !! u = Some (File data)
    /\ files c
       !! child (parent u)
            ("wallet_utxos.json.orphan_backup_" +:+ strftime now)
       = Some (File data)
    /\ parent (backup_file u now) = parent u
    /\ String.length (strftime now) = 15%nat
    /\ (basename u = "wallet_utxos.json" ->
        basename (backup_file u now)
        = basename u +:+ ".orphan_backup_" +:+ strftime now).
Proof.
  intros c Hret Hpos Hnodir. subst c.
  destruct (clean_ok_inv _ _ _ _ _ _ _ Hret) as [st Hrec].
  destruct (execute_rewrite_shape codec u w now fs st rep Hrec Hpos)
    as [(e & Hr & _)|(fs1 & _ & Hf & Hc & _)]; [congruence|].
  destruct (fs_copy2_ok _ _ _ _ Hc) as (data & Hu & Hne & Hb & _).
  exists data. split; [done|].
  split.
  { rewrite Hf. unfold copy_target in Hne, Hb.
    destruct (fs !! backup_file u now) as [[?|names]|] eqn:Hbf;
      [by rewrite lookup_insert_ne| |by rewrite lookup_insert_ne].
    by destruct (Hnodir names). }
  split; [apply parent_child|].
  split; [reflexivity|].
  intros Hname. unfold backup_file. rewrite basename_child, Hname.
  reflexivity.
Qed.

Lemma backup_name_is_fixed_witness :
  exists data,
    scenario_fs !! store_path = Some (File data)
    /\ files (clean_orphaned_utxos scenario_codec store_path wallets_path noon
                false scenario_fs)
       !! child (parent store_path)
            ("wallet_utxos.json.orphan_backup_" +:+ strftime noon)
       = Some (File data)
    /\ parent (backup_file store_path noon) = parent store_path
    /\ String.length (strftime noon) = 15%nat
    /\ (basename store_path = "wallet_utxos.json" ->
        basename (backup_file store_path noon)
        = basename store_path +:+ ".orphan_backup_" +:+ strftime noon).
Proof.
  apply (backup_name_is_fixed scenario_codec store_path wallets_path noon
           scenario_fs
           {| total_utxos := 2; report_owned_utxos := 1;
              report_orphaned_utxos := 1;
              report_orphaned_value_credits := 300 |}).
  - vm_compute. reflexivity.
  - simpl. lia.
  - intros names. vm_compute. discriminate.
Defined.

(** C6 as stated fails: for a store called [store.json] the backup is not
    called [store.json.orphan_backup_...]; it is called
    [wallet_utxos.json.orphan_backup_...]. *)
Lemma backup_ignores_store_name :
  let c := clean_orphaned_utxos scenario_codec other_store_path wallets_path
             noon false other_name_fs in
  returned c
  = Ok {| total_utxos := 2; report_owned_utxos := 1;
          report_orphaned_utxos := 1; report_orphaned_value_credits := 300 |}
  /\ files c !! ["data"; "store.json.orphan_backup_20250101_120000"] = None
  /\ files c !! ["data"; "wallet_utxos.json.orphan_backup_20250101_120000"]
     = Some (File (dump 0 (JArr [utxo_a; utxo_b])))
  /\ files c !! ["data"]
     = Some (Dir ["store.json";
                  "wallet_utxos.json.orphan_backup_20250101_120000"]).
Proof. vm_compute. auto. Qed.

(** ** Failures while reading *)

Lemma iobind_ok {A B} (m : io A) (k : A -> io B)
  (fs : gmap (list string) node) (a : A) :
  returned (m fs) = Ok a ->
  iobind m k fs
  = {| returned := returned (k a (files (m fs)));
       files := files (k a (files (m fs)));
       trace := trace (m fs) ++ trace (k a (files (m fs))) |}.
Proof. intros H. unfold iobind. by rewrite H. Qed.

Lemma iobind_raise {A B} (m : io A) (k : A -> io B)
  (fs : gmap (list string) node) (e : exn) :
  returned (m fs) = Raise e ->
  iobind m k fs
  = {| returned := Raise e; files := files (m fs); trace := trace (m fs) |}.
Proof. intros H. unfold iobind. by rewrite H. Qed.

Lemma read_json_run (codec : json_codec) (p : list string)
  (fs : gmap (list string) node) (data : string) (v : json) :
  fs !! p = Some (File data) ->
  json_loads codec data = Some v ->
  read_json codec p fs
  = {| returned := Ok v; files := fs; trace := [(EvOpenRead p, fs)] |}.
Proof.
  intros Hp Hl. unfold read_json.
  rewrite (iobind_ok _ _ _ data)
    by (unfold syscall, fs_read; by rewrite Hp).
  unfold syscall, fs_read. rewrite Hp. cbn [returned files trace fst snd].
  by rewrite Hl.
Qed.

(** C7, as the code has it: with the store present and parseable and no
    wallet directory, the run raises [FileNotFoundError] for the wallet
    directory from [os.listdir], after it has opened and read the store;
    it writes nothing. *)
Theorem missing_wallet_dir_after_store_read (codec : json_codec)
  (u w : list string) (now : datetime) (dry_run : bool)
  (fs : gmap (list string) node) (data : string) (utxos : json) :
  fs !! u = Some (File data) ->
  json_loads codec data = Some utxos ->
  fs !! w = None ->
  clean_orphaned_utxos codec u w now dry_run fs
  = {| returned := Raise (FileNotFoundError w);
       files := fs;
       trace := [(EvExists u, fs); (EvOpenRead u, fs); (EvListdir w, fs)] |}.
Proof.
  intros Hu Hl Hw.
  assert (Hret : returned (reconcile codec u w fs)
                 = Raise (FileNotFoundError w))
    by (by rewrite reconcile_returned, Hu, Hl, Hw).
  rewrite (clean_when_reconcile_raises _ _ _ _ _ _ _ Hret). f_equal.
  unfold reconcile.
  rewrite (iobind_ok _ _ _ true)
    by (unfold syscall, fs_exists; cbn [returned fst];
        by rewrite bool_decide_eq_true_2 by (rewrite Hu; eauto)).
  cbn [trace negb].
  change (files (syscall (EvExists u) (fs_exists u) fs)) with fs.
  change (trace (syscall (EvExists u) (fs_exists u) fs))
    with [(EvExists u, fs)].
  rewrite (iobind_ok _ _ _ utxos)
    by (by rewrite (read_json_run codec u fs data utxos Hu Hl)).
  rewrite (read_json_run codec u fs data utxos Hu Hl).
  cbn [returned files trace].
  assert (Hls : syscall (EvListdir w) (fs_listdir w) fs
                = {| returned := Raise (FileNotFoundError w); files := fs;
                     trace := [(EvListdir w, fs)] |})
    by (unfold syscall, fs_listdir; by rewrite Hw).
  rewrite (iobind_raise _ _ _ (FileNotFoundError w)) by (by rewrite Hls).
  rewrite Hls. reflexivity.
Qed.

Lemma missing_wallet_dir_after_store_read_witness :
  clean_orphaned_utxos scenario_codec store_path wallets_path noon false
    no_wallets_fs
  = {| returned := Raise (FileNotFoundError wallets_path);
       files := no_wallets_fs;
       trace := [(EvExists store_path, no_wallets_fs);
                 (EvOpenRead store_path, no_wallets_fs);
                 (EvListdir wallets_path, no_wallets_fs)] |}.
Proof.
  apply (missing_wallet_dir_after_store_read scenario_codec store_path
           wallets_path noon false no_wallets_fs
           (dump 0 (JArr [utxo_a; utxo_b])) (JArr [utxo_a; utxo_b]));
    vm_compute; reflexivity.
Defined.

(** C7 as stated fails: without a wallet directory the store is opened and
    read before the error is raised. *)
Lemma store_read_before_wallet_error :
  let c := clean_orphaned_utxos scenario_codec store_path wallets_path noon
             true no_wallets_fs in
  returned c = Raise (FileNotFoundError wallets_path)
  /\ map fst (trace c)
     = [EvExists store_path; EvOpenRead store_path; EvListdir wallets_path]
  /\ EvOpenRead store_path ∈ map fst (trace c).
Proof.
  vm_compute. split; [reflexivity|]. split; [reflexivity|].
  apply list_elem_of_In. simpl. auto.
Qed.

Lemma scan_wallets_returned_app (codec : json_codec) (w : list string)
  (fs : gmap (list string) node) (pre rest : list string) :
  forall ids,
    returned (scan_wallets codec w (pre ++ rest) ids fs)
    = let? ids' := returned (scan_wallets codec w pre ids fs) in
      returned (scan_wallets codec w rest ids' fs).
Proof.
  induction pre as [|name pre IH]; intros ids.
  - reflexivity.
  - rewrite <- app_comm_cons, !scan_wallets_returned_cons.
    destruct (_ && _); [|apply IH].
    destruct (returned (read_json codec (child w name) fs)); [|done].
    cbn [rbind]. destruct (add_wallet a ids); [|done]. cbn [rbind].
    apply IH.
Qed.

(** C8, as the code has it: a file of the wallet directory that is named
    like a wallet record and does not parse is not skipped.  Once the files
    listed before it have been read without error, [json.load] raises
    [JSONDecodeError]; the run ends there, dry or not, and writes
    nothing. *)
Theorem unparseable_wallet_aborts (codec : json_codec) (u w : list string)
  (now : datetime) (dry_run : bool) (fs : gmap (list string) node)
  (data bad : string) (utxos : json) (pre rest : list string)
  (name : string) (ids : pyset) :
  fs !! u = Some (File data) ->
  json_loads codec data = Some utxos ->
  fs !! w = Some (Dir (pre ++ name :: rest)) ->
  returned (scan_wallets codec w pre [] fs) = Ok ids ->
  startswith "wallet_" name && endswith ".json" name = true ->
  fs !! child w name = Some (File bad) ->
  json_loads codec bad = None ->
  returned (clean_orphaned_utxos codec u w now dry_run fs)
  = Raise JSONDecodeError
  /\ files (clean_orphaned_utxos codec u w now dry_run fs) = fs.
Proof.
  intros Hu Hl Hw Hpre Hname Hbad Hnone.
  assert (Hret : returned (reconcile codec u w fs) = Raise JSONDecodeError).
  { rewrite reconcile_returned, Hu, Hl, Hw.
    rewrite scan_wallets_returned_app, Hpre. cbn [rbind].
    rewrite scan_wallets_returned_cons, Hname.
    by rewrite read_json_returned, Hbad, Hnone. }
  by rewrite (clean_when_reconcile_raises _ _ _ _ _ _ _ Hret).
Qed.

Lemma unparseable_wallet_aborts_witness :
  returned (clean_orphaned_utxos scenario_codec store_path wallets_path noon
              false bad_sibling_fs)
  = Raise JSONDecodeError
  /\ files (clean_orphaned_utxos scenario_codec store_path wallets_path noon
              false bad_sibling_fs) = bad_sibling_fs.
Proof.
  apply (unparseable_wallet_aborts scenario_codec store_path wallets_path noon
           false bad_sibling_fs (dump 0 (JArr [utxo_a; utxo_b])) "not json"
           (JArr [utxo_a; utxo_b]) ["wallet_a.json"] [] "wallet_bad.json"
           [JStr "addrA"]);
    vm_compute; reflexivity.
Defined.

(** C8 as stated fails: with an unparseable [wallet_bad.json] beside a good
    wallet file the build neither skips the file nor completes; the run
    ends with [JSONDecodeError] right after opening it. *)
Lemma bad_wallet_file_not_skipped :
  let dry := clean_orphaned_utxos scenario_codec store_path wallets_path noon
               true bad_sibling_fs in
  let exe := clean_orphaned_utxos scenario_codec store_path wallets_path noon
               false bad_sibling_fs in
  returned dry = Raise JSONDecodeError
  /\ returned exe = Raise JSONDecodeError
  /\ map fst (trace exe)
     = [EvExists store_path; EvOpenRead store_path; EvListdir wallets_path;
        EvOpenRead ["wallets"; "wallet_a.json"];
        EvOpenRead ["wallets"; "wallet_bad.json"]].
Proof. vm_compute. auto. Qed.

(** ** Running twice *)

Lemma loop_body_inv (ids : pyset) (st st' : locals) (e : json) :
  loop_body ids st e = Ok st' ->
  (owned_utxos st' = owned_utxos st ++ [e]
   /\ orphaned_utxos st' = orphaned_utxos st /\ kept ids e)
  \/ (owned_utxos st' = owned_utxos st
      /\ orphaned_utxos st' = orphaned_utxos st ++ [e]).
Proof.
  unfold loop_body.
  destruct (py_get "address" (JStr "") e) as [address|] eqn:Ha; [|discriminate].
  cbn [rbind].
  destruct (set_contains address ids) as [[]|] eqn:Hc; [| |discriminate];
    cbn [rbind].
  - intros [= <-]. left. split; [done|]. split; [done|].
    intros st2. unfold loop_body. by rewrite Ha; cbn [rbind]; rewrite Hc.
  - destruct (py_get "value_credits" (JInt 0) e); [|discriminate].
    cbn [rbind]. destruct (py_iadd _ _); [|discriminate]. cbn [rbind].
    intros [= <-]. by right.
Qed.

Lemma loop_inv (ids : pyset) (entries : list json) :
  forall st st',
    loop ids st entries = Ok st' ->
    exists lo lr,
      owned_utxos st' = owned_utxos st ++ lo
      /\ orphaned_utxos st' = orphaned_utxos st ++ lr
      /\ Forall (kept ids) lo.
Proof.
  induction entries as [|e entries IH]; intros st st'; cbn [loop].
  - intros [= <-]. exists [], []. by rewrite !app_nil_r.
  - destruct (loop_body ids st e) as [st1|] eqn:Hb; [|discriminate].
    cbn [rbind]. intros Hl.
    destruct (IH _ _ Hl) as (lo & lr & Ho & Hr & Hk).
    destruct (loop_body_inv _ _ _ _ Hb) as [(Ho1 & Hr1 & Hke)|(Ho1 & Hr1)].
    + exists (e :: lo), lr. rewrite Ho, Hr, Ho1, Hr1, <- app_assoc.
      split; [done|]. split; [done|]. by constructor.
    + exists lo, (e :: lr). rewrite Ho, Hr, Ho1, Hr1, <- app_assoc.
      done.
Qed.

Lemma loop_kept (ids : pyset) (entries : list json) :
  Forall (kept ids) entries ->
  forall st,
    loop ids st entries
    = Ok {| owned_utxos := owned_utxos st ++ entries;
            orphaned_utxos := orphaned_utxos st;
            orphaned_value_credits := orphaned_value_credits st |}.
Proof.
  induction 1 as [|e entries He _ IH]; intros st; cbn [loop].
  - rewrite app_nil_r. by destruct st.
  - rewrite He. cbn [rbind]. rewrite IH. cbn. by rewrite <- app_assoc.
Qed.

(** Partitioning the owned entries of an earlier partition again finds
    them all owned. *)
Lemma partition_again (ids : pyset) (utxos : json) (st : locals) :
  partition_utxos ids utxos = Ok st ->
  partition_utxos ids (JArr (owned_utxos st))
  = Ok {| owned_utxos := owned_utxos st; orphaned_utxos := [];
          orphaned_value_credits := 0 |}.
Proof.
  unfold partition_utxos.
  destruct (py_iter utxos) as [entries|]; [|discriminate]. cbn [rbind py_iter].
  intros Hl. destruct (loop_inv _ _ _ _ Hl) as (lo & lr & Ho & _ & Hk).
  cbn in Ho. rewrite Ho. by rewrite (loop_kept ids lo Hk locals0).
Qed.

Lemma scan_wallets_ext (codec : json_codec) (w : list string)
  (fs fs' : gmap (list string) node) (names : list string) :
  Forall (fun name => fs' !! child w name = fs !! child w name) names ->
  forall ids,
    returned (scan_wallets codec w names ids fs')
    = returned (scan_wallets codec w names ids fs).
Proof.
  induction 1 as [|name names Hname _ IH]; intros ids.
  - reflexivity.
  - rewrite !scan_wallets_returned_cons.
    destruct (_ && _); [|apply IH].
    rewrite !read_json_returned, Hname.
    destruct (fs !! child w name) as [[data|?]|]; [|done..].
    destruct (json_loads codec data) as [d|]; [|done]. cbn [rbind].
    destruct (add_wallet d ids); [|done]. cbn [rbind]. apply IH.
Qed.

(** The reading phase looks at the store and at the wallet directory
    only. *)
Lemma reconcile_ext (codec : json_codec) (u w : list string)
  (fs fs' : gmap (list string) node) :
  fs' !! u = fs !! u ->
  same_wallet_store w fs fs' ->
  returned (reconcile codec u w fs') = returned (reconcile codec u w fs).
Proof.
  intros Hu [Hw Hnames]. rewrite !reconcile_returned, Hu, Hw.
  destruct (fs !! u) as [[data|?]|]; [|done..].
  destruct (json_loads codec data); [|done].
  destruct (fs !! w) as [[?|names]|]; [done| |done].
  by rewrite (scan_wallets_ext codec w fs fs' names (Hnames names eq_refl)).
Qed.

Lemma reconcile_ok_inv (codec : json_codec) (u w : list string)
  (fs : gmap (list string) node) (st : locals) (rep : report) :
  returned (reconcile codec u w fs) = Ok (st, rep) ->
  exists data utxos names ids,
    fs !! u = Some (File data)
    /\ json_loads codec data = Some utxos
    /\ fs !! w = Some (Dir names)
    /\ returned (scan_wallets codec w names [] fs) = Ok ids
    /\ partition_utxos ids utxos = Ok st
    /\ make_report st = Ok rep.
Proof.
  rewrite reconcile_returned.
  destruct (fs !! u) as [[data|?]|] eqn:Hu; [|discriminate..].
  destruct (json_loads codec data) as [utxos|] eqn:Hl; [|discriminate].
  destruct (fs !! w) as [[?|names]|] eqn:Hw; [discriminate| |discriminate].
  destruct (returned (scan_wallets codec w names [] fs)) as [ids|] eqn:Hs;
    [|discriminate].
  cbn [rbind].
  destruct (partition_utxos ids utxos) as [st1|] eqn:Hp; [|discriminate].
  cbn [rbind].
  destruct (make_report st1) as [rep1|] eqn:Hm; [|discriminate].
  cbn [rbind]. intros [= <- <-]. by exists data, utxos, names, ids.
Qed.

Lemma float_overflows_0 : float_overflows 0 = false.
Proof. vm_compute. reflexivity. Qed.

(** C4: let a run with [dry_run=False] have returned its report, and let
    the encoder and decoder round-trip the list of owned entries it kept.
    Then a second such run, on files that show the store as the first run
    left it and the wallet directory as the first run saw it, returns a
    report with no orphaned entry, leaves every file as it found it and
    makes reading calls only. *)
Theorem second_execute_is_noop (codec : json_codec) (u w : list string)
  (now now' : datetime) (fs fs2 : gmap (list string) node)
  (st : locals) (rep : report) :
  let c1 := clean_orphaned_utxos codec u w now false fs in
  returned (reconcile codec u w fs) = Ok (st, rep) ->
  returned c1 = Ok rep ->
  json_loads codec (json_dumps codec (JArr (owned_utxos st)))
  = Some (JArr (owned_utxos st)) ->
  fs2 !! u = files c1 !! u ->
  same_wallet_store w fs fs2 ->
  let c2 := clean_orphaned_utxos codec u w now' false fs2 in
  exists rep2,
    returned c2 = Ok rep2
    /\ report_orphaned_utxos rep2 = 0%nat
    /\ report_owned_utxos rep2 = report_owned_utxos rep
    /\ files c2 = fs2
    /\ quiet fs2 (trace c2).
Proof.
  intros c1 Hrec Hret Hround Hu2 Hsame c2. subst c1 c2.
  assert (Hnoop : forall st2 rep2,
             returned (reconcile codec u w fs2) = Ok (st2, rep2) ->
             report_orphaned_utxos rep2 = 0%nat ->
             report_owned_utxos rep2 = report_owned_utxos rep ->
             exists rep2,
               returned (clean_orphaned_utxos codec u w now' false fs2)
               = Ok rep2
               /\ report_orphaned_utxos rep2 = 0%nat
               /\ report_owned_utxos rep2 = report_owned_utxos rep
               /\ files (clean_orphaned_utxos codec u w now' false fs2) = fs2
               /\ quiet fs2
                    (trace (clean_orphaned_utxos codec u w now' false fs2))).
  { intros st2 rep2 Hrec2 Hz Ho. exists rep2.
    rewrite (clean_without_rewrite _ _ _ now' false _ _ _ Hrec2)
      by (by rewrite Hz).
    cbn [returned files trace]. repeat split; try done.
    apply readonly_reconcile. }
  destruct (report_orphaned_utxos rep) as [|n] eqn:Hn.
  - rewrite (clean_without_rewrite _ _ _ now false _ _ _ Hrec) in Hu2
      by (by rewrite Hn).
    cbn [files] in Hu2.
    apply (Hnoop st rep); [|done..].
    by rewrite (reconcile_ext codec u w fs fs2 Hu2 Hsame).
  - assert (Hpos : (0 < report_orphaned_utxos rep)%nat) by lia.
    destruct (execute_rewrite_shape codec u w now fs st rep Hrec Hpos)
      as [(e & Hr & _)|(fs1 & _ & Hf & _)]; [congruence|].
    rewrite Hf, lookup_insert_eq in Hu2.
    destruct (reconcile_ok_inv _ _ _ _ _ _ Hrec)
      as (data & utxos & names & ids & _ & _ & Hw & Hs & Hp & Hm).
    destruct Hsame as [Hw2 Hnames].
    unfold make_report in Hm.
    destruct (float_overflows (orphaned_value_credits st)); [discriminate|].
    injection Hm as <-.
    eapply Hnoop.
    + rewrite reconcile_returned, Hu2, Hround, Hw2, Hw.
      rewrite (scan_wallets_ext codec w fs fs2 names (Hnames names Hw)), Hs.
      cbn [rbind]. rewrite (partition_again ids utxos st Hp). cbn [rbind].
      unfold make_report. cbn [orphaned_value_credits].
      rewrite float_overflows_0. cbn [rbind]. reflexivity.
    + reflexivity.
    + reflexivity.
Qed.

Lemma second_execute_is_noop_witness :
  exists rep2,
    returned
      (clean_orphaned_utxos scenario_codec store_path wallets_path noon false
         (files (clean_orphaned_utxos scenario_codec store_path wallets_path
                   noon false scenario_fs)))
    = Ok rep2
    /\ report_orphaned_utxos rep2 = 0%nat
    /\ report_owned_utxos rep2 = 1%nat
    /\ files
         (clean_orphaned_utxos scenario_codec store_path wallets_path noon
            false
            (files (clean_orphaned_utxos scenario_codec store_path
                      wallets_path noon false scenario_fs)))
       = files (clean_orphaned_utxos scenario_codec store_path wallets_path
                  noon false scenario_fs)
    /\ quiet
         (files (clean_orphaned_utxos scenario_codec store_path wallets_path
                   noon false scenario_fs))
         (trace
            (clean_orphaned_utxos scenario_codec store_path wallets_path noon
               false
               (files (clean_orphaned_utxos scenario_codec store_path
                         wallets_path noon false scenario_fs)))).
Proof.
  apply (second_execute_is_noop scenario_codec store_path wallets_path noon
           noon scenario_fs
           (files (clean_orphaned_utxos scenario_codec store_path wallets_path
                     noon false scenario_fs))
           {| owned_utxos := [utxo_a]; orphaned_utxos := [utxo_b];
              orphaned_value_credits := 300 |}
           {| total_utxos := 2; report_owned_utxos := 1;
              report_orphaned_utxos := 1;
              report_orphaned_value_credits := 300 |}).
  - vm_compute. reflexivity.
  - vm_compute. reflexivity.
  - vm_compute. reflexivity.
  - reflexivity.
  - split; [vm_compute; reflexivity|].
    intros names Hnames. vm_compute in Hnames. injection Hnames as <-.
    repeat constructor.
Defined.

(** * Further properties of the script *)

(** ** Failures of the reading phase *)

Lemma read_json_run_bad (codec : json_codec) (p : list string)
  (fs : gmap (list string) node) (data : string) :
  fs !! p = Some (File data) ->
  json_loads codec data = None ->
  read_json codec p fs
  = {| returned := Raise JSONDecodeError; files := fs;
       trace := [(EvOpenRead p, fs)] |}.
Proof.
  intros Hp Hl. unfold read_json.
  rewrite (iobind_ok _ _ _ data)
    by (unfold syscall, fs_read; by rewrite Hp).
  unfold syscall, fs_read. rewrite Hp. cbn [returned files trace fst snd].
  by rewrite Hl.
Qed.

Lemma exists_run (u : list string) (fs : gmap (list string) node) :
  syscall (EvExists u) (fs_exists u) fs
  = {| returned := Ok (bool_decide (is_Some (fs !! u))); files := fs;
       trace := [(EvExists u, fs)] |}.
Proof. reflexivity. Qed.

(** X1: without a store the run raises [FileNotFoundError] for the store
    right after the existence test; no file is opened, the wallet directory
    is not listed, nothing is written. *)
Theorem missing_store_raises_at_once (codec : json_codec) (u w : list string)
  (now : datetime) (dry_run : bool) (fs : gmap (list string) node) :
  fs !! u = None ->
  clean_orphaned_utxos codec u w now dry_run fs
  = {| returned := Raise (FileNotFoundError u); files := fs;
       trace := [(EvExists u, fs)] |}.
Proof.
  intros Hu.
  assert (Hret : returned (reconcile codec u w fs)
                 = Raise (FileNotFoundError u))
    by (by rewrite reconcile_returned, Hu).
  rewrite (clean_when_reconcile_raises _ _ _ _ _ _ _ Hret). f_equal.
  unfold reconcile.
  rewrite (iobind_ok _ _ _ false)
    by (rewrite exists_run; cbn [returned];
        by rewrite bool_decide_eq_false_2 by (rewrite Hu; by intros [? ?])).
  rewrite exists_run. reflexivity.
Qed.

Lemma missing_store_raises_at_once_witness :
  clean_orphaned_utxos scenario_codec other_store_path wallets_path noon false
    scenario_fs
  = {| returned := Raise (FileNotFoundError other_store_path);
       files := scenario_fs;
       trace := [(EvExists other_store_path, scenario_fs)] |}.
Proof.
  apply (missing_store_raises_at_once scenario_codec other_store_path
           wallets_path noon false scenario_fs).
  vm_compute. reflexivity.
Defined.

(** X2: a store that is not JSON makes the run raise [JSONDecodeError]
    after opening it; the wallet directory is not listed and nothing is
    written. *)
Theorem unparseable_store_raises (codec : json_codec) (u w : list string)
  (now : datetime) (dry_run : bool) (fs : gmap (list string) node)
  (data : string) :
  fs !! u = Some (File data) ->
  json_loads codec data = None ->
  clean_orphaned_utxos codec u w now dry_run fs
  = {| returned := Raise JSONDecodeError; files := fs;
       trace := [(EvExists u, fs); (EvOpenRead u, fs)] |}.
Proof.
  intros Hu Hl.
  assert (Hret : returned (reconcile codec u w fs) = Raise JSONDecodeError)
    by (by rewrite reconcile_returned, Hu, Hl).
  rewrite (clean_when_reconcile_raises _ _ _ _ _ _ _ Hret). f_equal.
  unfold reconcile.
  rewrite (iobind_ok _ _ _ true)
    by (rewrite exists_run; cbn [returned];
        by rewrite bool_decide_eq_true_2 by (rewrite Hu; eauto)).
  rewrite exists_run. cbn [trace files negb].
  rewrite (iobind_raise _ _ _ JSONDecodeError)
    by (by rewrite (read_json_run_bad codec u fs data Hu Hl)).
  by rewrite (read_json_run_bad codec u fs data Hu Hl).
Qed.

Lemma unparseable_store_raises_witness :
  clean_orphaned_utxos scenario_codec (child wallets_path "wallet_bad.json")
    wallets_path noon false bad_sibling_fs
  = {| returned := Raise JSONDecodeError; files := bad_sibling_fs;
       trace := [(EvExists (child wallets_path "wallet_bad.json"),
                  bad_sibling_fs);
                 (EvOpenRead (child wallets_path "wallet_bad.json"),
                  bad_sibling_fs)] |}.
Proof.
  apply (unparseable_store_raises scenario_codec
           (child wallets_path "wallet_bad.json") wallets_path noon false
           bad_sibling_fs "not json");
    vm_compute; reflexivity.
Defined.

(** X3: a store with nothing to iterate over (an empty array, and likewise
    an empty object or an empty string) gives the all-zero report; with
    [dry_run=False] too the run makes no backup and writes nothing. *)
Theorem empty_store_is_left_alone (codec : json_codec) (u w : list string)
  (now : datetime) (dry_run : bool) (fs : gmap (list string) node)
  (data : string) (utxos : json) (names : list string) (ids : pyset) :
  fs !! u = Some (File data) ->
  json_loads codec data = Some utxos ->
  py_iter utxos = Ok [] ->
  fs !! w = Some (Dir names) ->
  returned (scan_wallets codec w names [] fs) = Ok ids ->
  let c := clean_orphaned_utxos codec u w now dry_run fs in
  returned c
  = Ok {| total_utxos := 0; report_owned_utxos := 0;
          report_orphaned_utxos := 0; report_orphaned_value_credits := 0 |}
  /\ files c = fs
  /\ quiet fs (trace c).
Proof.
  intros Hu Hl Hit Hw Hs c. subst c.
  assert (Hrec : returned (reconcile codec u w fs)
                 = Ok (locals0,
                       {| total_utxos := 0; report_owned_utxos := 0;
                          report_orphaned_utxos := 0;
                          report_orphaned_value_credits := 0 |})).
  { rewrite reconcile_returned, Hu, Hl, Hw, Hs. cbn [rbind].
    unfold partition_utxos. rewrite Hit. cbn [rbind loop].
    unfold make_report. cbn [orphaned_value_credits locals0].
    by rewrite float_overflows_0. }
  rewrite (clean_without_rewrite _ _ _ now dry_run _ _ _ Hrec)
    by (cbn; apply andb_false_r).
  cbn [returned files trace]. split; [done|]. split; [done|].
  apply readonly_reconcile.
Qed.

(** ** The scan of the wallet directory *)

Lemma iobind_ext {A B} (m : io A) (k k' : A -> io B)
  (fs : gmap (list string) node) :
  (forall a fs', k a fs' = k' a fs') -> iobind m k fs = iobind m k' fs.
Proof.
  intros H. unfold iobind. destruct (returned (m fs)); [|done].
  by rewrite H.
Qed.

(** X4: the scan opens the files named [wallet_*.json] and no other: with
    the other names struck from the listing it makes the same calls and
    returns the same identifiers or raises the same exception. *)
Theorem scan_reads_wallet_named_only (codec : json_codec) (w : list string)
  (names : list string) :
  forall (ids : pyset) (fs : gmap (list string) node),
    scan_wallets codec w names ids fs
    = scan_wallets codec w (List.filter wallet_named names) ids fs.
Proof.
  induction names as [|name names IH]; intros ids fs; [reflexivity|].
  cbn [List.filter]. destruct (wallet_named name) eqn:Hn.
  - cbn [scan_wallets]. unfold wallet_named in Hn. rewrite Hn.
    apply iobind_ext. intros d fs'. apply iobind_ext. intros ids' fs''.
    apply IH.
  - cbn [scan_wallets]. unfold wallet_named in Hn. rewrite Hn. apply IH.
Qed.

Lemma key_eq_refl (v : json) : hashable v = true -> key_eq v v = true.
Proof.
  destruct v as [|[]| | | |]; try discriminate; intros _;
    unfold key_eq, as_int, Z.b2z; try reflexivity.
  - apply Z.eqb_refl.
  - apply String.eqb_refl.
Qed.

Lemma add_field_mono (key : string) (d : json) (ids ids' : pyset) (x : json) :
  add_field key d ids = Ok ids' ->
  set_mem x ids = true -> set_mem x ids' = true.
Proof.
  unfold add_field. destruct (py_contains key d) as [[]|]; cbn [rbind];
    [| by intros [= <-] | discriminate].
  destruct (py_getitem key d) as [v|]; cbn [rbind]; [|discriminate].
  intros Ha Hx. by rewrite (set_mem_add x v ids ids' Ha), Hx.
Qed.

Lemma add_field_has (key : string) (kvs : list (string * json))
  (ids ids' : pyset) (v : json) :
  add_field key (JObj kvs) ids = Ok ids' ->
  dict_get key kvs = Some v ->
  set_mem v ids' = true.
Proof.
  unfold add_field, py_contains, py_getitem, dict_has. intros Ha Hv.
  rewrite Hv in Ha. cbn [rbind] in Ha.
  rewrite (set_mem_add v v ids ids' Ha).
  unfold set_add in Ha. destruct (hashable v) eqn:Hh; [|discriminate].
  by rewrite (key_eq_refl v Hh), orb_true_r.
Qed.

Lemma add_wallet_mono (d : json) (ids ids' : pyset) (x : json) :
  add_wallet d ids = Ok ids' ->
  set_mem x ids = true -> set_mem x ids' = true.
Proof.
  unfold add_wallet.
  destruct (add_field "public_key" d ids) as [ids1|] eqn:H1; [|discriminate].
  cbn [rbind]. eauto using add_field_mono.
Qed.

Lemma add_wallet_has (kvs : list (string * json)) (ids ids' : pyset)
  (key : string) (v : json) :
  add_wallet (JObj kvs) ids = Ok ids' ->
  key = "public_key" \/ key = "address" ->
  dict_get key kvs = Some v ->
  set_mem v ids' = true.
Proof.
  unfold add_wallet.
  destruct (add_field "public_key" (JObj kvs) ids) as [ids1|] eqn:H1;
    [|discriminate].
  cbn [rbind]. intros H2 [->| ->] Hv.
  - eapply add_field_mono; [exact H2|]. eapply add_field_has; eauto.
  - eapply add_field_has; eauto.
Qed.

Lemma scan_wallets_mono (codec : json_codec) (w : list string)
  (fs : gmap (list string) node) (names : list string) :
  forall ids0 ids x,
    returned (scan_wallets codec w names ids0 fs) = Ok ids ->
    set_mem x ids0 = true -> set_mem x ids = true.
Proof.
  induction names as [|name names IH]; intros ids0 ids x.
  - cbn. by intros [= <-].
  - rewrite scan_wallets_returned_cons. destruct (_ && _); [|apply IH].
    destruct (returned (read_json codec (child w name) fs)) as [d|];
      [|discriminate].
    cbn [rbind]. destruct (add_wallet d ids0) as [ids1|] eqn:Ha;
      [|discriminate].
    cbn [rbind]. intros Hs Hx. eapply IH; [exact Hs|].
    eauto using add_wallet_mono.
Qed.

(** When the scan returns, the value under [public_key] and the value under
    [address] of every listed file named [wallet_*.json] that holds an
    object are in the identifier set it returns. *)
Lemma scan_wallets_collects (codec : json_codec) (w : list string)
  (fs : gmap (list string) node) (names : list string) (ids0 ids : pyset)
  (name data key : string) (kvs : list (string * json)) (v : json) :
  returned (scan_wallets codec w names ids0 fs) = Ok ids ->
  In name names ->
  wallet_named name = true ->
  fs !! child w name = Some (File data) ->
  json_loads codec data = Some (JObj kvs) ->
  key = "public_key" \/ key = "address" ->
  dict_get key kvs = Some v ->
  set_mem v ids = true.
Proof.
  intros Hs Hin Hn Hf Hl Hk Hv. revert ids0 Hs.
  induction names as [|name' names IH]; intros ids0; [done|].
  rewrite scan_wallets_returned_cons.
  destruct Hin as [->|Hin].
  - unfold wallet_named in Hn. rewrite Hn, read_json_returned, Hf, Hl.
    cbn [rbind]. destruct (add_wallet (JObj kvs) ids0) as [ids1|] eqn:Ha;
      [|discriminate].
    cbn [rbind]. intros Hs. eapply scan_wallets_mono; [exact Hs|].
    eauto using add_wallet_has.
  - destruct (_ && _); [|by apply IH].
    destruct (returned (read_json codec (child w name') fs)) as [d|];
      [|discriminate].
    cbn [rbind]. destruct (add_wallet d ids0) as [ids1|]; [|discriminate].
    cbn [rbind]. by apply IH.
Qed.

(** X5: a file named [wallet_*.json] that holds an array of objects, as the
    store [wallet_utxos.json] itself does, passes through the scan without
    an error and adds no identifier. *)
Theorem array_of_objects_adds_nothing (items : list json) (ids : pyset) :
  Forall (fun e => is_dict e = true) items ->
  add_wallet (JArr items) ids = Ok ids
  /\ wallet_named "wallet_utxos.json" = true.
Proof.
  intros Hd. split; [|reflexivity].
  assert (Hno : forall k, existsb (key_eq (JStr k)) items = false).
  { intros k. induction Hd as [|e items He _ IH]; [done|].
    cbn [existsb]. rewrite IH. by destruct e. }
  unfold add_wallet, add_field, py_contains. by rewrite !Hno.
Qed.

Lemma array_of_objects_adds_nothing_witness :
  add_wallet (JArr [utxo_a; utxo_b]) [JStr "addrA"] = Ok [JStr "addrA"]
  /\ wallet_named "wallet_utxos.json" = true.
Proof.
  apply (array_of_objects_adds_nothing [utxo_a; utxo_b] [JStr "addrA"]).
  repeat constructor.
Defined.

Lemma empty_store_is_left_alone_witness :
  let c := clean_orphaned_utxos wide_codec store_path wallets_path noon false
             (store_fs (JArr [])) in
  returned c
  = Ok {| total_utxos := 0; report_owned_utxos := 0;
          report_orphaned_utxos := 0; report_orphaned_value_credits := 0 |}
  /\ files c = store_fs (JArr [])
  /\ quiet (store_fs (JArr [])) (trace c).
Proof.
  apply (empty_store_is_left_alone wide_codec store_path wallets_path noon
           false (store_fs (JArr [])) (dump 0 (JArr [])) (JArr [])
           ["wallet_a.json"] [JStr "addrA"]);
    vm_compute; reflexivity.
Defined.

(** ** The loop, entry by entry *)

Lemma loop_app (ids : pyset) (l1 l2 : list json) :
  forall st,
    loop ids st (l1 ++ l2) = let? st' := loop ids st l1 in loop ids st' l2.
Proof.
  induction l1 as [|e l1 IH]; intros st; [reflexivity|].
  cbn [app loop]. destruct (loop_body ids st e); [|reflexivity].
  cbn [rbind]. apply IH.
Qed.

Lemma loop_body_fileable (ids : pyset) (st : locals) (e : json) :
  entry_fileable ids e = true ->
  loop_body ids st e =
    Ok (if owned_by ids e
        then {| owned_utxos := owned_utxos st ++ [e];
                orphaned_utxos := orphaned_utxos st;
                orphaned_value_credits := orphaned_value_credits st |}
        else {| owned_utxos := owned_utxos st;
                orphaned_utxos := orphaned_utxos st ++ [e];
                orphaned_value_credits :=
                  (orphaned_value_credits st + credits_of e)%Z |}).
Proof.
  destruct e as [| | | | |kvs]; try discriminate.
  unfold entry_fileable, loop_body, owned_by, credits_of, set_contains, py_get.
  intros [Hh Hv]%andb_true_iff.
  unfold rbind at 1 2. rewrite Hh.
  destruct (set_mem _ ids); [reflexivity|].
  cbn [orb] in Hv. apply bool_decide_eq_true in Hv.
  unfold py_iadd, rbind.
  destruct (dict_get "value_credits" kvs) as [v|]; simpl in *.
  - destruct Hv as [n Hn]. by rewrite Hn.
  - by rewrite Z.add_0_r.
Qed.

Lemma loop_body_error (ids : pyset) (st : locals) (e : json) (ex : exn) :
  entry_error ids e = Some ex -> loop_body ids st e = Raise ex.
Proof.
  destruct e as [| | | | |kvs]; try (by intros [= <-]).
  unfold entry_error, loop_body, owned_by, set_contains, py_get.
  unfold rbind at 1 2.
  destruct (hashable _); [|by intros [= <-]].
  destruct (set_mem _ ids); [discriminate|]. cbn [orb].
  case_bool_decide as Hv; [discriminate|]. intros [= <-].
  unfold py_iadd, rbind.
  destruct (as_int _) eqn:Hi; [|done]. destruct Hv. eauto.
Qed.

Lemma fileable_or_error (ids : pyset) (e : json) :
  entry_fileable ids e = true \/ exists ex, entry_error ids e = Some ex.
Proof.
  destruct e as [| | | | |kvs]; try (right; by eexists).
  unfold entry_fileable, entry_error.
  destruct (hashable _); [|right; by eexists].
  destruct (_ || _); [by left|right; by eexists].
Qed.

Lemma loop_fileable (ids : pyset) (entries : list json) :
  Forall (fun e => entry_fileable ids e = true) entries ->
  forall st,
    loop ids st entries =
      Ok {| owned_utxos := owned_utxos st ++ List.filter (owned_by ids) entries;
            orphaned_utxos :=
              orphaned_utxos st
              ++ List.filter (fun e => negb (owned_by ids e)) entries;
            orphaned_value_credits :=
              (orphaned_value_credits st
               + sum_credits (List.filter (fun e => negb (owned_by ids e))
                                entries))%Z |}.
Proof.
  induction 1 as [|e entries He _ IH]; intros st; simpl.
  - rewrite !app_nil_r. unfold sum_credits. simpl. rewrite Z.add_0_r.
    by destruct st.
  - rewrite (loop_body_fileable ids st e He). simpl.
    rewrite IH. destruct (owned_by ids e); simpl.
    + by rewrite <- app_assoc.
    + rewrite <- app_assoc. unfold sum_credits. simpl.
      by rewrite Z.add_assoc.
Qed.

Lemma loop_ok_fileable (ids : pyset) (entries : list json) :
  forall st st',
    loop ids st entries = Ok st' ->
    Forall (fun e => entry_fileable ids e = true) entries.
Proof.
  induction entries as [|e entries IH]; intros st st'; [by constructor|].
  cbn [loop].
  destruct (fileable_or_error ids e) as [He|[ex He]].
  - rewrite (loop_body_fileable ids st e He). cbn [rbind].
    intros Hl. constructor; [done|]. eapply IH, Hl.
  - by rewrite (loop_body_error ids st e ex He).
Qed.

(** X6: the credits of owned entries are never read.  When every entry of
    the store is an object with a hashable address, and the credits of
    every entry that is not owned are an [int] or absent, the loop returns
    the stable split of the store by the membership test and the exact sum
    over the orphaned entries, whatever stands under [value_credits] in the
    owned entries. *)
Theorem owned_credits_are_never_read (ids : pyset) (entries : list json) :
  Forall (fun e => entry_fileable ids e = true) entries ->
  exists st,
    partition_utxos ids (JArr entries) = Ok st
    /\ owned_utxos st = List.filter (owned_by ids) entries
    /\ orphaned_utxos st
       = List.filter (fun e => negb (owned_by ids e)) entries
    /\ orphaned_value_credits st = sum_credits (orphaned_utxos st).
Proof.
  intros Hf. unfold partition_utxos. cbn [py_iter rbind].
  rewrite (loop_fileable ids entries Hf). eexists. split; [reflexivity|].
  cbn. by rewrite Z.add_0_l.
Qed.

Lemma owned_credits_are_never_read_witness :
  exists st,
    partition_utxos [JStr "addrA"] (JArr [utxo_odd; utxo_b]) = Ok st
    /\ owned_utxos st
       = List.filter (owned_by [JStr "addrA"]) [utxo_odd; utxo_b]
    /\ orphaned_utxos st
       = List.filter (fun e => negb (owned_by [JStr "addrA"] e))
           [utxo_odd; utxo_b]
    /\ orphaned_value_credits st = sum_credits (orphaned_utxos st).
Proof.
  apply (owned_credits_are_never_read [JStr "addrA"] [utxo_odd; utxo_b]).
  repeat constructor.
Defined.

(** X7: the first entry the loop cannot file decides the exception:
    [AttributeError] for an entry that is no object, [TypeError] for an
    unhashable address or for credits that are no number in an entry that
    is not owned.  The run raises it in either mode and writes nothing, the
    fileable entries before it included. *)
Theorem malformed_entry_aborts (codec : json_codec) (u w : list string)
  (now : datetime) (dry_run : bool) (fs : gmap (list string) node)
  (pre rest : list json) (e : json) (ids : pyset) (ex : exn) :
  loaded codec u w fs (pre ++ e :: rest) ids ->
  Forall (fun e' => entry_fileable ids e' = true) pre ->
  entry_error ids e = Some ex ->
  let c := clean_orphaned_utxos codec u w now dry_run fs in
  returned c = Raise ex /\ files c = fs.
Proof.
  intros (data & names & Hu & Hl & Hw & Hs) Hpre He c. subst c.
  assert (Hret : returned (reconcile codec u w fs) = Raise ex).
  { rewrite reconcile_returned, Hu, Hl, Hw, Hs. cbn [rbind].
    unfold partition_utxos. cbn [py_iter rbind].
    rewrite loop_app, (loop_fileable ids pre Hpre). cbn [rbind loop].
    by rewrite (loop_body_error ids _ e ex He). }
  by rewrite (clean_when_reconcile_raises _ _ _ _ _ _ _ Hret).
Qed.

Lemma malformed_entry_aborts_witness :
  let c := clean_orphaned_utxos wide_codec store_path wallets_path noon false
             (store_fs (JArr [utxo_a; JInt 7; utxo_b])) in
  returned c = Raise AttributeError
  /\ files c = store_fs (JArr [utxo_a; JInt 7; utxo_b]).
Proof.
  apply (malformed_entry_aborts wide_codec store_path wallets_path noon false
           (store_fs (JArr [utxo_a; JInt 7; utxo_b])) [utxo_a] [utxo_b]
           (JInt 7) [JStr "addrA"] AttributeError).
  - exists (dump 0 (JArr [utxo_a; JInt 7; utxo_b])), ["wallet_a.json"].
    repeat split; vm_compute; reflexivity.
  - repeat constructor.
  - reflexivity.
Defined.

(** ** Whole runs *)

Lemma loaded_reconcile (codec : json_codec) (u w : list string)
  (fs : gmap (list string) node) (entries : list json) (ids : pyset) :
  loaded codec u w fs entries ids ->
  returned (reconcile codec u w fs)
  = let? st := partition_utxos ids (JArr entries) in
    let? rep := make_report st in
    Ok (st, rep).
Proof.
  intros (data & names & Hu & Hl & Hw & Hs).
  by rewrite reconcile_returned, Hu, Hl, Hw, Hs.
Qed.

Lemma loaded_ok_inv (codec : json_codec) (u w : list string)
  (fs : gmap (list string) node) (entries : list json) (ids : pyset)
  (st : locals) (rep : report) :
  loaded codec u w fs entries ids ->
  returned (reconcile codec u w fs) = Ok (st, rep) ->
  owned_utxos st = List.filter (owned_by ids) entries
  /\ orphaned_utxos st = List.filter (fun e => negb (owned_by ids e)) entries
  /\ report_owned_utxos rep = length (owned_utxos st)
  /\ report_orphaned_utxos rep = length (orphaned_utxos st).
Proof.
  intros Hld. rewrite (loaded_reconcile _ _ _ _ _ _ Hld).
  destruct (partition_utxos ids (JArr entries)) as [st1|] eqn:Hp;
    [|discriminate].
  cbn [rbind]. unfold make_report.
  destruct (float_overflows _); [discriminate|]. cbn [rbind].
  intros [= <- <-]. cbn.
  unfold partition_utxos in Hp. cbn [py_iter rbind] in Hp.
  rewrite (loop_fileable ids entries (loop_ok_fileable _ _ _ _ Hp)) in Hp.
  injection Hp as <-. by cbn.
Qed.

(** X8: when the credits of the orphaned entries add up to
    [2^1024 - 2^970] or more in absolute value, the division of line 62
    cannot convert the sum to a float: the run raises [OverflowError] in
    either mode and writes nothing. *)
Theorem overflowing_sum_aborts (codec : json_codec) (u w : list string)
  (now : datetime) (dry_run : bool) (fs : gmap (list string) node)
  (entries : list json) (ids : pyset) :
  loaded codec u w fs entries ids ->
  Forall (fun e => entry_fileable ids e = true) entries ->
  (2 ^ 1024 - 2 ^ 970
   <= Z.abs (sum_credits (List.filter (fun e => negb (owned_by ids e))
                            entries)))%Z ->
  let c := clean_orphaned_utxos codec u w now dry_run fs in
  returned c = Raise OverflowError /\ files c = fs.
Proof.
  intros Hld Hf Hbig c. subst c.
  assert (Hret : returned (reconcile codec u w fs) = Raise OverflowError).
  { rewrite (loaded_reconcile _ _ _ _ _ _ Hld).
    unfold partition_utxos. cbn [py_iter rbind].
    rewrite (loop_fileable ids entries Hf). cbn [rbind].
    unfold make_report, float_overflows. cbn [orphaned_value_credits locals0].
    rewrite Z.add_0_l. by rewrite (proj2 (Z.leb_le _ _) Hbig). }
  by rewrite (clean_when_reconcile_raises _ _ _ _ _ _ _ Hret).
Qed.

Lemma overflowing_sum_aborts_witness :
  let c := clean_orphaned_utxos wide_codec store_path wallets_path noon false
             (store_fs (JArr [utxo_huge])) in
  returned c = Raise OverflowError /\ files c = store_fs (JArr [utxo_huge]).
Proof.
  apply (overflowing_sum_aborts wide_codec store_path wallets_path noon false
           (store_fs (JArr [utxo_huge])) [utxo_huge] [JStr "addrA"]).
  - exists (dump 0 (JArr [utxo_huge])), ["wallet_a.json"].
    repeat split; vm_compute; reflexivity.
  - repeat constructor.
  - vm_compute. discriminate.
Defined.

(** X9: what a returning run with [dry_run=False] leaves in the store.  If
    it reports orphaned entries, the store holds the dump of the owned
    entries, in their order and each as it was loaded; if it reports none,
    every file is as before.  The two counts of the report are the numbers
    of owned and of orphaned entries. *)
Theorem execute_keeps_owned_entries (codec : json_codec) (u w : list string)
  (now : datetime) (fs : gmap (list string) node)
  (entries : list json) (ids : pyset) (rep : report) :
  let c := clean_orphaned_utxos codec u w now false fs in
  loaded codec u w fs entries ids ->
  returned c = Ok rep ->
  report_owned_utxos rep = length (List.filter (owned_by ids) entries)
  /\ report_orphaned_utxos rep
     = length (List.filter (fun e => negb (owned_by ids e)) entries)
  /\ ((0 < report_orphaned_utxos rep)%nat ->
      files c !! u
      = Some (File (json_dumps codec
                      (JArr (List.filter (owned_by ids) entries)))))
  /\ (report_orphaned_utxos rep = 0%nat -> files c = fs).
Proof.
  intros c Hld Hret. subst c.
  destruct (clean_ok_inv _ _ _ _ _ _ _ Hret) as [st Hrec].
  destruct (loaded_ok_inv _ _ _ _ _ _ _ _ Hld Hrec) as (Ho & Hr & Hno & Hnr).
  rewrite Hno, Hnr, Ho, Hr. split; [done|]. split; [done|]. split.
  - intros Hpos. rewrite <- Hr, <- Hnr in Hpos.
    destruct (execute_rewrite_shape codec u w now fs st rep Hrec Hpos)
      as [(e & He & _)|(fs1 & _ & Hf & _)]; [congruence|].
    by rewrite Hf, lookup_insert_eq, Ho.
  - intros Hz. rewrite <- Hr, <- Hnr in Hz.
    by rewrite (clean_without_rewrite _ _ _ now false _ _ _ Hrec)
      by (by rewrite Hz).
Qed.

Lemma execute_keeps_owned_entries_witness :
  let c := clean_orphaned_utxos scenario_codec store_path wallets_path noon
             false scenario_fs in
  report_owned_utxos
    {| total_utxos := 2; report_owned_utxos := 1;
       report_orphaned_utxos := 1; report_orphaned_value_credits := 300 |}
  = length (List.filter (owned_by [JStr "addrA"]) [utxo_a; utxo_b])
  /\ report_orphaned_utxos
       {| total_utxos := 2; report_owned_utxos := 1;
          report_orphaned_utxos := 1; report_orphaned_value_credits := 300 |}
     = length (List.filter (fun e => negb (owned_by [JStr "addrA"] e))
                 [utxo_a; utxo_b])
  /\ ((0 < report_orphaned_utxos
             {| total_utxos := 2; report_owned_utxos := 1;
                report_orphaned_utxos := 1;
                report_orphaned_value_credits := 300 |})%nat ->
      files c !! store_path
      = Some (File (json_dumps scenario_codec
                      (JArr (List.filter (owned_by [JStr "addrA"])
                               [utxo_a; utxo_b])))))
  /\ (report_orphaned_utxos
        {| total_utxos := 2; report_owned_utxos := 1;
           report_orphaned_utxos := 1; report_orphaned_value_credits := 300 |}
      = 0%nat -> files c = scenario_fs).
Proof.
  apply (execute_keeps_owned_entries scenario_codec store_path wallets_path
           noon scenario_fs [utxo_a; utxo_b] [JStr "addrA"]).
  - exists (dump 0 (JArr [utxo_a; utxo_b])), ["wallet_a.json"].
    repeat split; vm_compute; reflexivity.
  - vm_compute. reflexivity.
Defined.

(** X10: no run, dry or not, returning or raising, creates, changes or
    removes a file other than the store and the target of the backup copy;
    the wallet files in particular are only read. *)
Theorem only_store_and_backup_change (codec : json_codec) (u w : list string)
  (now : datetime) (dry_run : bool) (fs : gmap (list string) node)
  (q : list string) (d : string) :
  let c := clean_orphaned_utxos codec u w now dry_run fs in
  q <> u ->
  q <> copy_target u (backup_file u now) fs ->
  files c !! q = Some (File d) <-> fs !! q = Some (File d).
Proof.
  intros c Hu Ht. subst c.
  destruct (returned (reconcile codec u w fs)) as [[st rep]|e] eqn:Hrec.
  2:{ by rewrite (clean_when_reconcile_raises _ _ _ _ _ _ _ Hrec). }
  destruct (negb dry_run && (0 <? report_orphaned_utxos rep)%nat) eqn:Hg.
  2:{ by rewrite (clean_without_rewrite _ _ _ now _ _ _ _ Hrec Hg). }
  apply andb_true_iff in Hg as [Hd Hpos%Nat.ltb_lt].
  destruct dry_run; [discriminate|].
  destruct (execute_rewrite_shape codec u w now fs st rep Hrec Hpos)
    as [(e & _ & Hf & _)|(fs1 & _ & Hf & Hc & _)]; rewrite Hf; [done|].
  rewrite lookup_insert_ne by done.
  by apply (fs_copy2_other_files _ _ _ _ Hc).
Qed.

Lemma only_store_and_backup_change_witness :
  files (clean_orphaned_utxos scenario_codec store_path wallets_path noon
           false scenario_fs)
  !! child wallets_path "wallet_a.json" = Some (File (dump 0 wallet_a))
  <-> scenario_fs !! child wallets_path "wallet_a.json"
      = Some (File (dump 0 wallet_a)).
Proof.
  apply (only_store_and_backup_change scenario_codec store_path wallets_path
           noon false scenario_fs (child wallets_path "wallet_a.json")
           (dump 0 wallet_a));
    vm_compute; discriminate.
Defined.

(** X11: a run with [dry_run=False] that returns a report returns the
    report the dry run on the same files returns. *)
Theorem execute_reports_as_dry_run (codec : json_codec) (u w : list string)
  (now : datetime) (fs : gmap (list string) node) (rep : report) :
  returned (clean_orphaned_utxos codec u w now false fs) = Ok rep ->
  returned (clean_orphaned_utxos codec u w now true fs) = Ok rep.
Proof.
  intros Hret. destruct (clean_ok_inv _ _ _ _ _ _ _ Hret) as [st Hrec].
  by rewrite (clean_without_rewrite _ _ _ now true _ _ _ Hrec).
Qed.

Lemma execute_reports_as_dry_run_witness :
  returned (clean_orphaned_utxos scenario_codec store_path wallets_path noon
              true scenario_fs)
  = Ok {| total_utxos := 2; report_owned_utxos := 1;
          report_orphaned_utxos := 1; report_orphaned_value_credits := 300 |}.
Proof.
  apply (execute_reports_as_dry_run scenario_codec store_path wallets_path
           noon scenario_fs).
  vm_compute. reflexivity.
Defined.



(** ** [main]: dry run, question, cleanup *)

Lemma readonly_dry_run (codec : json_codec) (u w : list string)
  (now : datetime) :
  readonly (clean_orphaned_utxos codec u w now true).
Proof.
  apply (readonly_bind (reconcile codec u w)).
  - apply readonly_reconcile.
  - intros sr. apply readonly_ret.
Qed.

(** X13: unless the answer, stripped and lowered, is [yes], and likewise
    when the dry run raises, [main] makes the calls of the dry run and no
    other: every file is as before.  It returns normally after a declined
    question and passes on the exception of a failed dry run. *)
Theorem main_without_yes_writes_nothing (codec : json_codec) (now : datetime)
  (response : string) (fs : gmap (list string) node) :
  let dry := clean_orphaned_utxos codec main_utxo_file main_wallets_dir now
               true fs in
  let m := main codec now response fs in
  confirmed response = false \/ (exists e, returned dry = Raise e) ->
  files m = fs
  /\ trace m = trace dry
  /\ quiet fs (trace m)
  /\ returned m = (let? _ := returned dry in Ok tt).
Proof.
  intros dry m Hcase. subst m.
  destruct (readonly_dry_run codec main_utxo_file main_wallets_dir now fs)
    as [Hf Hq]. fold dry in Hf, Hq.
  unfold main.
  destruct (returned dry) as [rep|e] eqn:Hdry.
  - destruct Hcase as [Hno|[e He]]; [|discriminate].
    rewrite (iobind_ok _ _ _ rep) by exact Hdry. fold dry.
    rewrite Hno. cbn [negb ioret returned files trace rbind].
    by rewrite app_nil_r.
  - rewrite (iobind_raise _ _ _ e) by exact Hdry. fold dry.
    cbn [returned files trace rbind]. done.
Qed.

Lemma main_without_yes_writes_nothing_witness :
  let dry := clean_orphaned_utxos scenario_codec main_utxo_file
               main_wallets_dir noon true main_fs in
  let m := main scenario_codec noon "no" main_fs in
  files m = main_fs
  /\ trace m = trace dry
  /\ quiet main_fs (trace m)
  /\ returned m = (let? _ := returned dry in Ok tt).
Proof.
  apply (main_without_yes_writes_nothing scenario_codec noon "no" main_fs).
  left. reflexivity.
Defined.

(** X14: when the dry run returns and the answer is yes, [main] is the dry
    run followed by the run with [dry_run=False] on the same files: it
    leaves the files that run leaves, its calls are the calls of the two in
    this order, and it raises what that run raises. *)
Theorem main_with_yes_runs_cleanup (codec : json_codec) (now : datetime)
  (response : string) (fs : gmap (list string) node) (rep : report) :
  let dry := clean_orphaned_utxos codec main_utxo_file main_wallets_dir now
               true fs in
  let exe := clean_orphaned_utxos codec main_utxo_file main_wallets_dir now
               false fs in
  let m := main codec now response fs in
  confirmed response = true ->
  returned dry = Ok rep ->
  files m = files exe
  /\ trace m = trace dry ++ trace exe
  /\ returned m = (let? _ := returned exe in Ok tt).
Proof.
  intros dry exe m Hyes Hdry. subst m.
  destruct (readonly_dry_run codec main_utxo_file main_wallets_dir now fs)
    as [Hf _]. fold dry in Hf.
  unfold main.
  rewrite (iobind_ok _ _ _ rep) by exact Hdry. fold dry.
  rewrite Hyes, Hf. cbn [negb]. fold exe.
  destruct (returned exe) as [rep'|e] eqn:Hexe.
  - rewrite (iobind_ok _ _ _ rep') by exact Hexe. fold exe.
    cbn [ioret returned files trace rbind]. by rewrite app_nil_r.
  - rewrite (iobind_raise _ _ _ e) by exact Hexe. fold exe.
    cbn [returned files trace rbind]. done.
Qed.

Lemma main_with_yes_runs_cleanup_witness :
  let dry := clean_orphaned_utxos scenario_codec main_utxo_file
               main_wallets_dir noon true main_fs in
  let exe := clean_orphaned_utxos scenario_codec main_utxo_file
               main_wallets_dir noon false main_fs in
  let m := main scenario_codec noon " Yes" main_fs in
  files m = files exe
  /\ trace m = trace dry ++ trace exe
  /\ returned m = (let? _ := returned exe in Ok tt).
Proof.
  apply (main_with_yes_runs_cleanup scenario_codec noon " Yes" main_fs
           {| total_utxos := 2; report_owned_utxos := 1;
              report_orphaned_utxos := 1;
              report_orphaned_value_credits := 300 |});
    vm_compute; reflexivity.
Defined.

(** ** The timestamp in the name of the backup *)

Lemma String_eq_inv (a b : Ascii.ascii) (s t : string) :
  String a s = String b t -> a = b /\ s = t.
Proof. by intros [= -> ->]. Qed.

Lemma digit_inj (a b : nat) : digit a = digit b -> a mod 10 = b mod 10.
Proof.
  unfold digit. intros H. apply (f_equal Ascii.nat_of_ascii) in H.
  pose proof (Nat.mod_upper_bound a 10). pose proof (Nat.mod_upper_bound b 10).
  rewrite !Ascii.nat_ascii_embedding in H by lia. lia.
Qed.

Lemma two_digits_split (a b : nat) (s t : string) :
  a < 100 -> b < 100 ->
  two_digits a +:+ s = two_digits b +:+ t -> a = b /\ s = t.
Proof.
  intros Ha Hb H. unfold two_digits in H. cbn [String.append] in H.
  apply String_eq_inv in H as [H1%digit_inj H].
  apply String_eq_inv in H as [H2%digit_inj H].
  split; [|done].
  pose proof (Nat.div_mod_eq a 10). pose proof (Nat.div_mod_eq b 10).
  assert (a / 10 < 10) by (apply Nat.Div0.div_lt_upper_bound; lia).
  assert (b / 10 < 10) by (apply Nat.Div0.div_lt_upper_bound; lia).
  rewrite !(Nat.mod_small (_ / 10)) in H1 by done.
  lia.
Qed.

Lemma four_digits_split (a b : nat) (s t : string) :
  a < 10 * 1000 -> b < 10 * 1000 ->
  four_digits a +:+ s = four_digits b +:+ t -> a = b /\ s = t.
Proof.
  intros Ha Hb H. unfold four_digits, two_digits in H. cbn [String.append] in H.
  apply String_eq_inv in H as [H1%digit_inj H].
  apply String_eq_inv in H as [H2%digit_inj H].
  apply String_eq_inv in H as [H3%digit_inj H].
  apply String_eq_inv in H as [H4%digit_inj H].
  split; [|done].
  pose proof (Nat.div_mod_eq a 10). pose proof (Nat.div_mod_eq b 10).
  pose proof (Nat.div_mod_eq (a / 10) 10).
  pose proof (Nat.div_mod_eq (b / 10) 10).
  pose proof (Nat.div_mod_eq (a / 100) 10).
  pose proof (Nat.div_mod_eq (b / 100) 10).
  assert (a / 100 / 10 < 10)
    by (do 2 (apply Nat.Div0.div_lt_upper_bound); lia).
  assert (b / 100 / 10 < 10)
    by (do 2 (apply Nat.Div0.div_lt_upper_bound); lia).
  rewrite !(Nat.mod_small (_ / 100 / 10)) in H1 by done.
  assert (Ea : a / 10 / 10 = a / 100) by (by rewrite Nat.Div0.div_div).
  assert (Eb : b / 10 / 10 = b / 100) by (by rewrite Nat.Div0.div_div).
  lia.
Qed.

Lemma append_inj_l (p s t : string) : p +:+ s = p +:+ t -> s = t.
Proof.
  induction p as [|a p IH]; [done|].
  change (String a (p +:+ s) = String a (p +:+ t) -> s = t).
  intros [_ H]%String_eq_inv. by apply IH.
Qed.

(** X15: within the ranges of [datetime] and for years of four digits, the
    name of the backup determines the second it was taken at: cleanups of
    one store at two different seconds write two different backup files. *)
Theorem backup_names_differ_by_second (u : list string) (t t' : datetime) :
  in_range t -> in_range t' ->
  t <> t' -> backup_file u t <> backup_file u t'.
Proof.
  intros (Hy1 & Hy2 & Hmo & Hd & Hh & Hmi & Hs)
         (Hy1' & Hy2' & Hmo' & Hd' & Hh' & Hmi' & Hs') Hne H.
  apply Hne.
  unfold backup_file, child in H. apply app_inj_tail in H as [_ H].
  apply append_inj_l in H. unfold strftime in H.
  apply four_digits_split in H as [Ey H]; [|lia..].
  apply two_digits_split in H as [Emo H]; [|lia..].
  apply two_digits_split in H as [Ed H]; [|lia..].
  cbn [String.append] in H. apply String_eq_inv in H as [_ H].
  apply two_digits_split in H as [Eh H]; [|lia..].
  apply two_digits_split in H as [Emi H]; [|lia..].
  assert (Hnil : forall s, s = s +:+ EmptyString)
    by (intros s; induction s as [|a s IH]; [done|];
        change (String a s = String a (s +:+ EmptyString)); by rewrite <- IH).
  rewrite (Hnil (two_digits (second t))),
    (Hnil (two_digits (second t'))) in H.
  apply two_digits_split in H as [Es _]; [|lia..].
  destruct t, t'. cbn in *. by subst.
Qed.

Lemma backup_names_differ_by_second_witness :
  backup_file store_path noon
  <> backup_file store_path
       {| year := 2025; month := 1; day := 1;
          hour := 12; minute := 0; second := 1 |}.
Proof.
  apply (backup_names_differ_by_second store_path noon
           {| year := 2025; month := 1; day := 1;
              hour := 12; minute := 0; second := 1 |});
    first [ discriminate | unfold in_range, noon; cbn; lia ].
Defined.

(** ** The answer that lets the cleanup proceed *)

Lemma append_nil_r (s : string) : s +:+ EmptyString = s.
Proof.
  induction s as [|a s IH]; [done|].
  change (String a (s +:+ EmptyString) = String a s). by rewrite IH.
Qed.

Lemma append_assoc (s1 s2 s3 : string) :
  (s1 +:+ s2) +:+ s3 = s1 +:+ (s2 +:+ s3).
Proof.
  induction s1 as [|a s1 IH]; [done|].
  change (String a ((s1 +:+ s2) +:+ s3) = String a (s1 +:+ (s2 +:+ s3))).
  by rewrite IH.
Qed.

Lemma rev_app_append (s1 : string) :
  forall s2 s3,
    String.rev_app s1 s2 +:+ s3 = String.rev_app s1 (s2 +:+ s3).
Proof.
  induction s1 as [|a s1 IH]; intros s2 s3; [done|].
  change (String.rev_app s1 (String a s2) +:+ s3
          = String.rev_app s1 (String a (s2 +:+ s3))).
  by rewrite IH.
Qed.

Lemma rev_cons (a : Ascii.ascii) (s : string) :
  String.rev (String a s) = String.rev s +:+ String a EmptyString.
Proof.
  unfold String.rev.
  change (String.rev_app s (EmptyString +:+ String a EmptyString)
          = String.rev_app s EmptyString +:+ String a EmptyString).
  by rewrite rev_app_append.
Qed.

Lemma rev_append (s1 s2 : string) :
  String.rev (s1 +:+ s2) = String.rev s2 +:+ String.rev s1.
Proof.
  induction s1 as [|a s1 IH].
  - change (String.rev s2 = String.rev s2 +:+ EmptyString).
    by rewrite append_nil_r.
  - change (String.rev (String a (s1 +:+ s2))
            = String.rev s2 +:+ String.rev (String a s1)).
    by rewrite !rev_cons, IH, append_assoc.
Qed.

Lemma rev_rev (s : string) : String.rev (String.rev s) = s.
Proof.
  induction s as [|a s IH]; [done|].
  rewrite rev_cons, rev_append, IH. reflexivity.
Qed.

Lemma all_space_append (s1 s2 : string) :
  all_space (s1 +:+ s2) = all_space s1 && all_space s2.
Proof.
  induction s1 as [|a s1 IH]; [done|].
  change (py_isspace a && all_space (s1 +:+ s2)
          = py_isspace a && all_space s1 && all_space s2).
  by rewrite IH, andb_assoc.
Qed.

Lemma all_space_rev (s : string) : all_space (String.rev s) = all_space s.
Proof.
  induction s as [|a s IH]; [done|].
  rewrite rev_cons, all_space_append, IH. cbn [all_space].
  rewrite andb_true_r. apply andb_comm.
Qed.

Lemma lstrip_split (s : string) :
  exists pre, s = pre +:+ lstrip s /\ all_space pre = true.
Proof.
  induction s as [|a s (pre & IH & Hpre)].
  - by exists EmptyString.
  - cbn [lstrip]. destruct (py_isspace a) eqn:Ha.
    + exists (String a pre). split.
      * change (String a s = String a (pre +:+ lstrip s)). by rewrite <- IH.
      * cbn [all_space]. by rewrite Ha.
    + by exists EmptyString.
Qed.

Lemma lstrip_spaces (pre s : string) :
  all_space pre = true -> lstrip (pre +:+ s) = lstrip s.
Proof.
  induction pre as [|a pre IH]; [done|].
  cbn [all_space]. intros [Ha Hpre]%andb_true_iff.
  change (lstrip (String a (pre +:+ s)) = lstrip s).
  cbn [lstrip]. rewrite Ha. by apply IH.
Qed.

Lemma lower_char_y (a : Ascii.ascii) :
  String (lower_char a) EmptyString = "y" ->
  String a EmptyString = "y" \/ String a EmptyString = "Y".
Proof.
  destruct a as [[] [] [] [] [] [] [] []]; vm_compute; intros H;
    first [discriminate H | by left | by right].
Qed.

Lemma lower_char_e (a : Ascii.ascii) :
  String (lower_char a) EmptyString = "e" ->
  String a EmptyString = "e" \/ String a EmptyString = "E".
Proof.
  destruct a as [[] [] [] [] [] [] [] []]; vm_compute; intros H;
    first [discriminate H | by left | by right].
Qed.

Lemma lower_char_s (a : Ascii.ascii) :
  String (lower_char a) EmptyString = "s" ->
  String a EmptyString = "s" \/ String a EmptyString = "S".
Proof.
  destruct a as [[] [] [] [] [] [] [] []]; vm_compute; intros H;
    first [discriminate H | by left | by right].
Qed.

Lemma lower_yes (mid : string) :
  lower mid = "yes" <-> In mid yes_spellings.
Proof.
  split.
  - destruct mid as [|a [|b [|c [|d mid]]]]; try discriminate.
    cbn [lower]. intros H.
    apply String_eq_inv in H as [Ha H].
    apply String_eq_inv in H as [Hb H].
    apply String_eq_inv in H as [Hc _].
    destruct (lower_char_y a) as [[= ->]|[= ->]]; [by rewrite Ha|..];
      (destruct (lower_char_e b) as [[= ->]|[= ->]]; [by rewrite Hb|..]);
      (destruct (lower_char_s c) as [[= ->]|[= ->]]; [by rewrite Hc|..]);
      unfold yes_spellings; cbn [In]; tauto.
  - unfold yes_spellings. cbn [In].
    intros H; repeat (destruct H as [<-|H]; [reflexivity|]); destruct H.
Qed.

(** X16: the cleanup proceeds exactly on the answers that consist of yes,
    in any mix of upper and lower case, with white space and nothing else
    before and after it. *)
Theorem confirmed_iff_yes (response : string) :
  confirmed response = true <->
  exists pre mid post,
    response = pre +:+ mid +:+ post
    /\ all_space pre = true /\ all_space post = true
    /\ In mid yes_spellings.
Proof.
  unfold confirmed. rewrite String.eqb_eq, lower_yes. unfold strip. split.
  - intros Hmid.
    destruct (lstrip_split response) as (pre & Hr & Hpre).
    destruct (lstrip_split (String.rev (lstrip response)))
      as (q & Hq & Hsp).
    exists pre, (String.rev (lstrip (String.rev (lstrip response)))),
      (String.rev q).
    split; [|by rewrite all_space_rev].
    rewrite <- rev_append, <- Hq, rev_rev. exact Hr.
  - intros (pre & mid & post & -> & Hpre & Hpost & Hmid).
    assert (Hstop : lstrip (mid +:+ post) = mid +:+ post
                    /\ lstrip (String.rev mid) = String.rev mid).
    { unfold yes_spellings in Hmid. cbn [In] in Hmid.
      repeat (destruct Hmid as [<-|Hmid]; [by split|]). destruct Hmid. }
    destruct Hstop as [H1 H2].
    rewrite (lstrip_spaces pre _ Hpre), H1, rev_append.
    rewrite lstrip_spaces by (by rewrite all_space_rev).
    by rewrite H2, rev_rev.
Qed.

(** ** Where identifiers come from *)

Lemma add_field_from (key : string) (d : json) (ids ids' : pyset) (x : json) :
  add_field key d ids = Ok ids' ->
  set_mem x ids' = true ->
  set_mem x ids = true
  \/ exists kvs v,
       d = JObj kvs /\ dict_get key kvs = Some v /\ key_eq x v = true.
Proof.
  unfold add_field. destruct (py_contains key d) as [[]|]; cbn [rbind];
    [| intros [= <-]; by left | discriminate].
  destruct d as [| | | | |kvs]; try discriminate. cbn [py_getitem].
  destruct (dict_get key kvs) as [v|] eqn:Hv; [|discriminate]. cbn [rbind].
  intros Ha. rewrite (set_mem_add x v ids ids' Ha).
  intros [?|?]%orb_true_iff; [by left|right; eauto].
Qed.

Lemma add_wallet_from (d : json) (ids ids' : pyset) (x : json) :
  add_wallet d ids = Ok ids' ->
  set_mem x ids' = true ->
  set_mem x ids = true
  \/ exists kvs key v,
       d = JObj kvs /\ (key = "public_key" \/ key = "address")
       /\ dict_get key kvs = Some v /\ key_eq x v = true.
Proof.
  unfold add_wallet.
  destruct (add_field "public_key" d ids) as [ids1|] eqn:H1; [|discriminate].
  cbn [rbind]. intros H2 Hx.
  destruct (add_field_from _ _ _ _ _ H2 Hx) as [Hx1|(kvs & v & ? & ? & ?)].
  - destruct (add_field_from _ _ _ _ _ H1 Hx1) as [?|(kvs & v & ? & ? & ?)];
      [by left|].
    right. exists kvs, "public_key", v. eauto.
  - right. exists kvs, "address", v. eauto.
Qed.

Lemma set_mem_key_eq (x v : json) (ids : pyset) :
  key_eq x v = true -> set_mem v ids = true -> set_mem x ids = true.
Proof.
  unfold set_mem. intros Hxv (y & Hy & Hvy)%existsb_exists.
  apply existsb_exists. exists y. eauto using key_eq_trans.
Qed.

(** X17: the identifier set the scan returns holds the values found under
    [public_key] and [address] in the listed files named [wallet_*.json],
    and nothing else: a value is a member exactly when it equals one of
    them. *)
Theorem identifiers_are_the_wallet_values (codec : json_codec)
  (w : list string) (fs : gmap (list string) node) (names : list string)
  (ids : pyset) (x : json) :
  returned (scan_wallets codec w names [] fs) = Ok ids ->
  set_mem x ids = true <->
  exists name data kvs key v,
    In name names /\ wallet_named name = true
    /\ fs !! child w name = Some (File data)
    /\ json_loads codec data = Some (JObj kvs)
    /\ (key = "public_key" \/ key = "address")
    /\ dict_get key kvs = Some v
    /\ key_eq x v = true.
Proof.
  intros Hs. split.
  - assert (Hgen : forall names ids0 ids,
               returned (scan_wallets codec w names ids0 fs) = Ok ids ->
               set_mem x ids = true ->
               set_mem x ids0 = true
               \/ exists name data kvs key v,
                    In name names /\ wallet_named name = true
                    /\ fs !! child w name = Some (File data)
                    /\ json_loads codec data = Some (JObj kvs)
                    /\ (key = "public_key" \/ key = "address")
                    /\ dict_get key kvs = Some v
                    /\ key_eq x v = true).
    { clear. induction names as [|name names IH]; intros ids0 ids.
      - cbn. intros [= <-]. by left.
      - rewrite scan_wallets_returned_cons.
        destruct (startswith "wallet_" name && endswith ".json" name)
          eqn:Hn.
        2:{ intros Hs Hx. destruct (IH _ _ Hs Hx)
              as [?|(n & da & kvs & key & v & Hin & Hrest)]; [by left|].
            right. exists n, da, kvs, key, v. split; [by right|done]. }
        rewrite read_json_returned.
        destruct (fs !! child w name) as [[data|?]|] eqn:Hf;
          [|discriminate..].
        destruct (json_loads codec data) as [d|] eqn:Hl; [|discriminate].
        cbn [rbind]. destruct (add_wallet d ids0) as [ids1|] eqn:Ha;
          [|discriminate].
        cbn [rbind]. intros Hs Hx.
        destruct (IH _ _ Hs Hx)
          as [Hx1|(n & da & kvs & key & v & Hin & Hrest)].
        + destruct (add_wallet_from _ _ _ _ Ha Hx1)
            as [?|(kvs & key & v & -> & Hk & Hv & He)]; [by left|].
          right. exists name, data, kvs, key, v.
          split; [by left|]. done.
        + right. exists n, da, kvs, key, v. split; [by right|done]. }
    intros Hx. destruct (Hgen _ _ _ Hs Hx) as [Hnil|?]; [|done].
    discriminate Hnil.
  - intros (name & data & kvs & key & v & Hin & Hn & Hf & Hl & Hk & Hv & He).
    eapply set_mem_key_eq; [exact He|].
    eapply scan_wallets_collects; eauto.
Qed.

Lemma identifiers_are_the_wallet_values_witness :
  set_mem (JStr "addrB") [JStr "addrA"] = true <->
  exists name data kvs key v,
    In name ["wallet_a.json"] /\ wallet_named name = true
    /\ scenario_fs !! child wallets_path name = Some (File data)
    /\ json_loads scenario_codec data = Some (JObj kvs)
    /\ (key = "public_key" \/ key = "address")
    /\ dict_get key kvs = Some v
    /\ key_eq (JStr "addrB") v = true.
Proof.
  apply (identifiers_are_the_wallet_values scenario_codec wallets_path
           scenario_fs ["wallet_a.json"] [JStr "addrA"] (JStr "addrB")).
  vm_compute. reflexivity.
Defined.
